(** * gst-perf: the statistics engine of the [perf] element

    A shallow embedding of [plugins/gstperf.c]: the CPU-load estimator, the
    running and moving averages, the bitrate sampler, the per-buffer data
    path with its report, and the GPU snapshot parser.

    Conventions.
    - A C unsigned integer of width [w] is a [Z] in [0, 2^w); every
      operation that can leave the range is followed by its wrap-around.
    - A [gdouble] is an IEEE-754 binary64 value, [spec_float] with
      [prec = 53] and [emax = 1024]; conversions from integers round to
      nearest, ties to even.
    - The mutexes of the element are not modelled: every function is
      embedded as the sequential code between its lock and unlock calls.
    - Reading the window buffer outside its allocation is undefined in C;
      the functions that index it return [None] there. *)

From Stdlib Require Import ZArith Lia Bool String Ascii.
From Stdlib Require Import Floats.SpecFloat.
From stdpp Require Import base list.
From Stdlib Require DecimalString DecimalNat.

Local Open Scope Z_scope.

(** ** Machine integers *)

Definition wrap32 (z : Z) : Z := z mod 2 ^ 32.
Definition wrap64 (z : Z) : Z := z mod 2 ^ 64.

Definition is_u32 (z : Z) : Prop := 0 <= z < 2 ^ 32.
Definition is_u64 (z : Z) : Prop := 0 <= z < 2 ^ 64.

(** [long] on the LP64 targets of the element. *)
Definition LONG_MAX : Z := 2 ^ 63 - 1.
Definition LONG_MIN : Z := - 2 ^ 63.

(** ** Doubles *)

Definition double : Type := spec_float.

Definition d_prec : Z := 53.
Definition d_emax : Z := 1024.

Definition d_add : double -> double -> double := SFadd d_prec d_emax.
Definition d_sub : double -> double -> double := SFsub d_prec d_emax.
Definition d_mul : double -> double -> double := SFmul d_prec d_emax.
Definition d_div : double -> double -> double := SFdiv d_prec d_emax.

(** Conversion of an integer to [gdouble]. *)
Definition d_of_Z (z : Z) : double := binary_normalize d_prec d_emax z 0 false.

Definition d_zero : double := S754_zero false.

(** ** Constants *)

Definition GST_PERF_BITS_PER_BYTE : Z := 8.

(** [GST_PERF_MS_PER_S] is the literal [1000.0]. *)
Definition GST_PERF_MS_PER_S : double := d_of_Z 1000.

Definition DEFAULT_BITRATE_WINDOW_SIZE : Z := 0.
Definition DEFAULT_BITRATE_INTERVAL : Z := 1000.

(** Modelled from the spec: [GST_SECOND] of GStreamer's [gstclock.h], which
    is not part of the sources; the report period, one second in the
    nanoseconds of [GstClockTime]. *)
Definition GST_SECOND : Z := 1000000000.

(** Modelled from the spec: [GST_CLOCK_TIME_NONE] of [gstclock.h], the
    invalid timestamp that a session starts from; the all-ones [guint64]. *)
Definition GST_CLOCK_TIME_NONE : Z := 2 ^ 64 - 1.

(** Modelled from the spec: [GST_CLOCK_TIME_IS_VALID] of [gstclock.h]. *)
Definition GST_CLOCK_TIME_IS_VALID (t : Z) : bool := negb (t =? GST_CLOCK_TIME_NONE).

(** Modelled from the spec: [GST_CLOCK_DIFF (s, e)] of [gstclock.h], the
    elapsed time [e - s], here as it is stored into the [GstClockTime]
    local [diff]. *)
Definition GST_CLOCK_DIFF (s e : Z) : Z := wrap64 (e - s).

(** ** The element *)

(** The anonymous [gpu_stats] struct. *)
Record GpuStats : Type := mkGpuStats {
  encoder_utilization : Z;  (* guint *)
  session_count : Z;        (* guint *)
  average_fps : Z;          (* guint *)
  average_latency : Z;      (* guint64 *)
  gpu_utilization : Z;      (* guint *)
  memory_used : Z;          (* guint *)
  memory_free : Z           (* guint *)
}.

Definition gpu_stats_zero : GpuStats := mkGpuStats 0 0 0 0 0 0 0.

(** [struct _GstPerf], without the parent object, the pads, the message
    error, the mutexes and the timer id. *)
Record GstPerf : Type := mkGstPerf {
  prev_timestamp : Z;  (* GstClockTime *)
  fps : double;
  frame_count : Z;  (* guint32 *)
  frame_count_total : Z;  (* guint64 *)
  bps : double;
  mean_bps : double;
  bps_window_buffer : list double;  (* gdouble *, as the array it points to *)
  bps_window_size : Z;  (* guint32 *)
  bps_window_buffer_current : Z;  (* guint32 *)
  byte_count : Z;  (* guint64 *)
  byte_count_total : Z;  (* guint64 *)
  bps_interval : Z;  (* guint *)
  bps_running_interval : Z;  (* guint *)
  prev_cpu_total : Z;  (* guint32 *)
  prev_cpu_idle : Z;  (* guint32 *)
  gpu_stats : GpuStats;
  print_cpu_load : bool;
  gpu_stats_enabled : bool
}.

(** Field assignments [perf->f = v]. *)

Definition set_prev_timestamp (perf : GstPerf) (v : Z) : GstPerf :=
  mkGstPerf v (fps perf) (frame_count perf) (frame_count_total perf) (bps perf) (mean_bps perf)
    (bps_window_buffer perf) (bps_window_size perf) (bps_window_buffer_current perf)
    (byte_count perf) (byte_count_total perf) (bps_interval perf) (bps_running_interval perf)
    (prev_cpu_total perf) (prev_cpu_idle perf) (gpu_stats perf) (print_cpu_load perf)
    (gpu_stats_enabled perf).

Definition set_fps (perf : GstPerf) (v : double) : GstPerf :=
  mkGstPerf (prev_timestamp perf) v (frame_count perf) (frame_count_total perf) (bps perf)
    (mean_bps perf) (bps_window_buffer perf) (bps_window_size perf)
    (bps_window_buffer_current perf) (byte_count perf) (byte_count_total perf)
    (bps_interval perf) (bps_running_interval perf) (prev_cpu_total perf) (prev_cpu_idle perf)
    (gpu_stats perf) (print_cpu_load perf) (gpu_stats_enabled perf).

Definition set_frame_count (perf : GstPerf) (v : Z) : GstPerf :=
  mkGstPerf (prev_timestamp perf) (fps perf) v (frame_count_total perf) (bps perf)
    (mean_bps perf) (bps_window_buffer perf) (bps_window_size perf)
    (bps_window_buffer_current perf) (byte_count perf) (byte_count_total perf)
    (bps_interval perf) (bps_running_interval perf) (prev_cpu_total perf) (prev_cpu_idle perf)
    (gpu_stats perf) (print_cpu_load perf) (gpu_stats_enabled perf).

Definition set_frame_count_total (perf : GstPerf) (v : Z) : GstPerf :=
  mkGstPerf (prev_timestamp perf) (fps perf) (frame_count perf) v (bps perf) (mean_bps perf)
    (bps_window_buffer perf) (bps_window_size perf) (bps_window_buffer_current perf)
    (byte_count perf) (byte_count_total perf) (bps_interval perf) (bps_running_interval perf)
    (prev_cpu_total perf) (prev_cpu_idle perf) (gpu_stats perf) (print_cpu_load perf)
    (gpu_stats_enabled perf).

Definition set_bps (perf : GstPerf) (v : double) : GstPerf :=
  mkGstPerf (prev_timestamp perf) (fps perf) (frame_count perf) (frame_count_total perf) v
    (mean_bps perf) (bps_window_buffer perf) (bps_window_size perf)
    (bps_window_buffer_current perf) (byte_count perf) (byte_count_total perf)
    (bps_interval perf) (bps_running_interval perf) (prev_cpu_total perf) (prev_cpu_idle perf)
    (gpu_stats perf) (print_cpu_load perf) (gpu_stats_enabled perf).

Definition set_mean_bps (perf : GstPerf) (v : double) : GstPerf :=
  mkGstPerf (prev_timestamp perf) (fps perf) (frame_count perf) (frame_count_total perf)
    (bps perf) v (bps_window_buffer perf) (bps_window_size perf)
    (bps_window_buffer_current perf) (byte_count perf) (byte_count_total perf)
    (bps_interval perf) (bps_running_interval perf) (prev_cpu_total perf) (prev_cpu_idle perf)
    (gpu_stats perf) (print_cpu_load perf) (gpu_stats_enabled perf).

Definition set_bps_window_buffer (perf : GstPerf) (v : list double) : GstPerf :=
  mkGstPerf (prev_timestamp perf) (fps perf) (frame_count perf) (frame_count_total perf)
    (bps perf) (mean_bps perf) v (bps_window_size perf) (bps_window_buffer_current perf)
    (byte_count perf) (byte_count_total perf) (bps_interval perf) (bps_running_interval perf)
    (prev_cpu_total perf) (prev_cpu_idle perf) (gpu_stats perf) (print_cpu_load perf)
    (gpu_stats_enabled perf).

Definition set_byte_count (perf : GstPerf) (v : Z) : GstPerf :=
  mkGstPerf (prev_timestamp perf) (fps perf) (frame_count perf) (frame_count_total perf)
    (bps perf) (mean_bps perf) (bps_window_buffer perf) (bps_window_size perf)
    (bps_window_buffer_current perf) v (byte_count_total perf) (bps_interval perf)
    (bps_running_interval perf) (prev_cpu_total perf) (prev_cpu_idle perf) (gpu_stats perf)
    (print_cpu_load perf) (gpu_stats_enabled perf).

Definition set_byte_count_total (perf : GstPerf) (v : Z) : GstPerf :=
  mkGstPerf (prev_timestamp perf) (fps perf) (frame_count perf) (frame_count_total perf)
    (bps perf) (mean_bps perf) (bps_window_buffer perf) (bps_window_size perf)
    (bps_window_buffer_current perf) (byte_count perf) v (bps_interval perf)
    (bps_running_interval perf) (prev_cpu_total perf) (prev_cpu_idle perf) (gpu_stats perf)
    (print_cpu_load perf) (gpu_stats_enabled perf).

Definition set_bps_running_interval (perf : GstPerf) (v : Z) : GstPerf :=
  mkGstPerf (prev_timestamp perf) (fps perf) (frame_count perf) (frame_count_total perf)
    (bps perf) (mean_bps perf) (bps_window_buffer perf) (bps_window_size perf)
    (bps_window_buffer_current perf) (byte_count perf) (byte_count_total perf)
    (bps_interval perf) v (prev_cpu_total perf) (prev_cpu_idle perf) (gpu_stats perf)
    (print_cpu_load perf) (gpu_stats_enabled perf).

Definition set_prev_cpu_total (perf : GstPerf) (v : Z) : GstPerf :=
  mkGstPerf (prev_timestamp perf) (fps perf) (frame_count perf) (frame_count_total perf)
    (bps perf) (mean_bps perf) (bps_window_buffer perf) (bps_window_size perf)
    (bps_window_buffer_current perf) (byte_count perf) (byte_count_total perf)
    (bps_interval perf) (bps_running_interval perf) v (prev_cpu_idle perf) (gpu_stats perf)
    (print_cpu_load perf) (gpu_stats_enabled perf).

Definition set_prev_cpu_idle (perf : GstPerf) (v : Z) : GstPerf :=
  mkGstPerf (prev_timestamp perf) (fps perf) (frame_count perf) (frame_count_total perf)
    (bps perf) (mean_bps perf) (bps_window_buffer perf) (bps_window_size perf)
    (bps_window_buffer_current perf) (byte_count perf) (byte_count_total perf)
    (bps_interval perf) (bps_running_interval perf) (prev_cpu_total perf) v (gpu_stats perf)
    (print_cpu_load perf) (gpu_stats_enabled perf).

Definition set_gpu_stats (perf : GstPerf) (v : GpuStats) : GstPerf :=
  mkGstPerf (prev_timestamp perf) (fps perf) (frame_count perf) (frame_count_total perf)
    (bps perf) (mean_bps perf) (bps_window_buffer perf) (bps_window_size perf)
    (bps_window_buffer_current perf) (byte_count perf) (byte_count_total perf)
    (bps_interval perf) (bps_running_interval perf) (prev_cpu_total perf) (prev_cpu_idle perf) v
    (print_cpu_load perf) (gpu_stats_enabled perf).
(** ** CPU load estimator *)

(** [gst_perf_compute_cpu]: all locals are [guint32]; the literal [1000] is
    an [int], so [1000 * busy] is computed in [unsigned int]. Returns the
    element with the new snapshot, and the load. *)
Definition gst_perf_compute_cpu (self : GstPerf)
    (current_idle current_total : Z) : GstPerf * Z :=
  let idle := wrap32 (current_idle - prev_cpu_idle self) in
  let total := wrap32 (current_total - prev_cpu_total self) in
  let self := set_prev_cpu_total self current_total in
  let self := set_prev_cpu_idle self current_idle in
  if total =? 0 then (self, 0)
  else
    let busy := wrap32 (total - idle) in
    (self, wrap32 (wrap32 (wrap32 (1000 * busy) / total) + 5) / 10).

(** The first [cpu] line of [/proc/stat], as the eight [guint32] that
    [fscanf] fills. *)
Record ProcStat : Type := mkProcStat {
  ps_user : Z; ps_nice : Z; ps_sys : Z; ps_idle : Z;
  ps_iowait : Z; ps_irq : Z; ps_softirq : Z; ps_steal : Z
}.

(** [gst_perf_cpu_get_load] of the Linux build. The argument is what the
    scan of [/proc/stat] found: [None] when the file cannot be opened or
    has no [cpu] line. Returns the element, [*cpu_load] and the result. *)
Definition gst_perf_cpu_get_load (perf : GstPerf) (stat : option ProcStat)
    : GstPerf * Z * bool :=
  let cpu_load := wrap32 (-1) in
  match stat with
  | None => (perf, cpu_load, false)
  | Some st =>
      let total :=
        wrap32 (ps_user st + ps_nice st + ps_sys st + ps_idle st
                + ps_iowait st + ps_irq st + ps_softirq st + ps_steal st) in
      let '(perf, load) := gst_perf_compute_cpu perf (ps_idle st) total in
      (perf, load, true)
  end.

(** ** Averaging engine *)

(** [gst_perf_update_average]: [count] is a [guint64]; [count - 1] is taken
    in [guint64] before the conversion to [gdouble]. *)
Definition gst_perf_update_average (count : Z) (current old : double) : double :=
  if count =? 0 then d_zero
  else d_div (d_add (d_mul (d_of_Z (wrap64 (count - 1))) old) current)
             (d_of_Z count).

(** [gst_perf_update_moving_average]. *)
Definition gst_perf_update_moving_average (window_size : Z)
    (old_average new_sample old_sample : double) : double :=
  if window_size =? 0 then d_zero
  else d_div (d_add (d_sub (d_mul old_average (d_of_Z window_size)) old_sample)
                    new_sample)
             (d_of_Z window_size).

(** ** Bitrate sampler *)

(** [bps = byte_count * GST_PERF_BITS_PER_BYTE / (bps_running_interval /
    GST_PERF_MS_PER_S)] for the local [guint byte_count]: the product is an
    [unsigned int], the quotient a [gdouble]. *)
Definition bits_per_second (byte_count interval : Z) : double :=
  d_div (d_of_Z (wrap32 (byte_count * GST_PERF_BITS_PER_BYTE)))
        (d_div (d_of_Z interval) GST_PERF_MS_PER_S).

(** [buffer_current_idx = byte_count_total % bps_window_size], a [guint]. *)
Definition buffer_current_idx (perf : GstPerf) : Z :=
  wrap32 (byte_count_total perf mod bps_window_size perf).

(** [gst_perf_update_bps]. The local [byte_count] is a [guint]: the
    [guint64] counter is narrowed when it is read. *)
Definition gst_perf_update_bps (perf : GstPerf) : option GstPerf :=
  let byte_count := wrap32 (byte_count perf) in
  let perf := set_byte_count perf 0 in
  let mean := mean_bps perf in
  let bps := bits_per_second byte_count (bps_running_interval perf) in
  let updated :=
    if bps_window_size perf =? 0 then
      Some (perf, gst_perf_update_average (byte_count_total perf) bps mean)
    else
      let idx := Z.to_nat (buffer_current_idx perf) in
      match bps_window_buffer perf !! idx with
      | None => None
      | Some old_sample =>
          let mean :=
            gst_perf_update_moving_average (bps_window_size perf) mean bps
              old_sample in
          Some (set_bps_window_buffer perf (<[idx := bps]> (bps_window_buffer perf)),
                mean)
      end in
  match updated with
  | None => None
  | Some (perf, mean) =>
      let perf := set_mean_bps perf mean in
      let perf := set_bps perf bps in
      Some (set_byte_count_total perf (wrap64 (byte_count_total perf + 1)))
  end.

(** ** Session state *)

(** [gst_perf_reset]. *)
Definition gst_perf_reset (perf : GstPerf) : GstPerf := set_frame_count perf 0.

(** [gst_perf_clear]. *)
Definition gst_perf_clear (perf : GstPerf) : GstPerf :=
  let perf := gst_perf_reset perf in
  let perf := set_fps perf d_zero in
  let perf := set_frame_count_total perf 0 in
  let perf := set_mean_bps perf d_zero in
  let perf := set_byte_count_total perf 0 in
  let perf := set_byte_count perf 0 in
  let perf := set_prev_timestamp perf GST_CLOCK_TIME_NONE in
  let perf := set_prev_cpu_total perf 0 in
  let perf := set_prev_cpu_idle perf 0 in
  set_gpu_stats perf gpu_stats_zero.

(** [gst_perf_start]: [g_malloc0] either returns zeroed memory, that is
    [window_size] doubles [+0.0], or aborts the process; the timer that
    [g_timeout_add] arms is the [Tick] event below. *)
Definition gst_perf_start (perf : GstPerf) : GstPerf :=
  let perf := gst_perf_clear perf in
  let perf :=
    if bps_window_size perf =? 0 then perf
    else set_bps_window_buffer perf
           (replicate (Z.to_nat (bps_window_size perf)) d_zero) in
  set_bps_running_interval perf (bps_interval perf).

(** ** GPU snapshot *)

(** What [g_spawn_command_line_sync] hands back for the query command. *)
Record SpawnResult : Type := mkSpawnResult {
  spawn_ret : bool;
  spawn_exit_status : Z;
  spawn_output : string
}.

Definition is_comma (c : ascii) : bool := (c =? ",")%char.

(** The successive results of [strtok (output, ",")], [strtok (NULL, ",")],
    ...: the maximal runs of characters other than the delimiter. [tok] is
    the run being read. *)
Fixpoint strtok_from (s : string) (tok : string) : list string :=
  match s with
  | EmptyString =>
      match tok with EmptyString => [] | _ => [tok] end
  | String c rest =>
      if is_comma c then
        match tok with
        | EmptyString => strtok_from rest EmptyString
        | _ => tok :: strtok_from rest EmptyString
        end
      else strtok_from rest (tok ++ String c EmptyString)%string
  end.

Definition strtok_all (s : string) : list string := strtok_from s EmptyString.

(** [isspace] in the C locale. *)
Definition isspace (c : ascii) : bool :=
  let n := Z.of_nat (nat_of_ascii c) in (n =? 32) || ((9 <=? n) && (n <=? 13)).

Definition isdigit (c : ascii) : bool :=
  let n := Z.of_nat (nat_of_ascii c) in (48 <=? n) && (n <=? 57).

Fixpoint skip_spaces (s : string) : string :=
  match s with
  | String c rest => if isspace c then skip_spaces rest else s
  | EmptyString => s
  end.

(** The value of the leading decimal digits of [s], continuing [acc]. *)
Fixpoint digits_value (s : string) (acc : Z) : Z :=
  match s with
  | String c rest =>
      if isdigit c then digits_value rest (10 * acc + (Z.of_nat (nat_of_ascii c) - 48))
      else acc
  | EmptyString => acc
  end.

(** [atol], that is [strtol (s, NULL, 10)]: white space, an optional sign,
    digits; a value out of range is clamped as [strtol] clamps it. *)
Definition atol (s : string) : Z :=
  match skip_spaces s with
  | String "-" rest => Z.max LONG_MIN (- digits_value rest 0)
  | String "+" rest => Z.min LONG_MAX (digits_value rest 0)
  | t => Z.min LONG_MAX (digits_value t 0)
  end.

(** One iteration of the token loop of [gst_perf_get_gpu_stats]: the
    [switch (i)] on the token index, [number] being a [guint64]. *)
Definition gpu_stats_store (g : GpuStats) (i : Z) (token : string) : GpuStats :=
  let number := wrap64 (atol token) in
  match i with
  | 0 => mkGpuStats (wrap32 number) (session_count g) (average_fps g) (average_latency g)
           (gpu_utilization g) (memory_used g) (memory_free g)
  | 1 => mkGpuStats (encoder_utilization g) (wrap32 number) (average_fps g)
           (average_latency g) (gpu_utilization g) (memory_used g) (memory_free g)
  | 2 => mkGpuStats (encoder_utilization g) (session_count g) (wrap32 number)
           (average_latency g) (gpu_utilization g) (memory_used g) (memory_free g)
  | 3 => mkGpuStats (encoder_utilization g) (session_count g) (average_fps g) number
           (gpu_utilization g) (memory_used g) (memory_free g)
  | 4 => mkGpuStats (encoder_utilization g) (session_count g) (average_fps g)
           (average_latency g) (wrap32 number) (memory_used g) (memory_free g)
  | 5 => mkGpuStats (encoder_utilization g) (session_count g) (average_fps g)
           (average_latency g) (gpu_utilization g) (wrap32 number) (memory_free g)
  | 6 => mkGpuStats (encoder_utilization g) (session_count g) (average_fps g)
           (average_latency g) (gpu_utilization g) (memory_used g) (wrap32 number)
  | _ => g
  end.

(** The loop [for (int i = 0; token != NULL; i++)]. *)
Fixpoint gpu_stats_loop (g : GpuStats) (i : Z) (tokens : list string) : GpuStats :=
  match tokens with
  | [] => g
  | token :: rest => gpu_stats_loop (gpu_stats_store g i token) (i + 1) rest
  end.

(** [gst_perf_get_gpu_stats] of the Linux build; [q] is the outcome of
    running the query command. *)
Definition gst_perf_get_gpu_stats (perf : GstPerf) (q : SpawnResult) : GstPerf * bool :=
  if spawn_ret q && (spawn_exit_status q =? 0) then
    (set_gpu_stats perf (gpu_stats_loop (gpu_stats perf) 0 (strtok_all (spawn_output q))),
     spawn_ret q)
  else (perf, spawn_ret q).

(** ** Report emitter and data path *)

(** The arguments of the [on-stats] signal, in the order they are emitted. *)
Record Report : Type := mkReport {
  r_fps : double;
  r_mean_fps : double;
  r_bps : double;
  r_mean_bps : double;
  r_cpu_load : Z;
  r_encoder_utilization : Z;
  r_session_count : Z;
  r_average_fps : Z;
  r_average_latency : Z;
  r_gpu_utilization : Z;
  r_memory_used : Z;
  r_memory_free : Z
}.

(** The condition under which [gst_perf_transform_ip] enters its report
    block, [time] being the reading of [gst_util_get_timestamp]. *)
Definition report_due (perf : GstPerf) (time : Z) : bool :=
  let diff := GST_CLOCK_DIFF (prev_timestamp perf) time in
  negb (GST_CLOCK_TIME_IS_VALID (prev_timestamp perf))
  || (GST_CLOCK_TIME_IS_VALID time && (GST_SECOND <=? diff)).

(** The report block of [gst_perf_transform_ip]. The text of the info
    message is not modelled; the signal arguments are. *)
Definition report_block (perf : GstPerf) (time : Z)
    (stat : option ProcStat) (gpu : SpawnResult) : GstPerf * Report :=
  let diff := GST_CLOCK_DIFF (prev_timestamp perf) time in
  let time_factor := d_div (d_mul (d_of_Z 1) (d_of_Z diff)) (d_of_Z GST_SECOND) in
  let fps_now := d_div (d_of_Z (frame_count perf)) time_factor in
  let perf :=
    set_fps perf (gst_perf_update_average (frame_count_total perf) fps_now (fps perf)) in
  let perf := set_frame_count_total perf (wrap64 (frame_count_total perf + 1)) in
  let perf := gst_perf_reset perf in
  let perf := set_prev_timestamp perf time in
  let '(perf, cpu_load, _) := gst_perf_cpu_get_load perf stat in
  let perf :=
    if gpu_stats_enabled perf then fst (gst_perf_get_gpu_stats perf gpu) else perf in
  (perf,
   mkReport fps_now (fps perf) (bps perf) (mean_bps perf) cpu_load
     (encoder_utilization (gpu_stats perf)) (session_count (gpu_stats perf))
     (average_fps (gpu_stats perf)) (average_latency (gpu_stats perf))
     (gpu_utilization (gpu_stats perf)) (memory_used (gpu_stats perf))
     (memory_free (gpu_stats perf))).

(** [gst_perf_transform_ip] for a buffer of [size] bytes. Besides the clock
    reading it is given what the two collaborators would answer if asked
    during this call. Returns the element and the report, if one was
    emitted. *)
Definition gst_perf_transform_ip (perf : GstPerf) (time size : Z)
    (stat : option ProcStat) (gpu : SpawnResult) : option (GstPerf * option Report) :=
  let '(perf, report) :=
    if report_due perf time then
      let '(perf, r) := report_block perf time stat gpu in (perf, Some r)
    else (perf, None) in
  let perf := set_frame_count perf (wrap32 (frame_count perf + 1)) in
  let perf := set_byte_count perf (wrap64 (byte_count perf + size)) in
  match gst_perf_update_bps perf with
  | Some perf => Some (perf, report)
  | None => None
  end.

(** ** Running session *)

(** What happens to a started element: a buffer goes through
    [gst_perf_transform_ip], or the timeout source armed by
    [gst_perf_start] fires [gst_perf_update_bps]. *)
Inductive event : Type :=
  | Buffer (time size : Z) (stat : option ProcStat) (gpu : SpawnResult)
  | Tick.

Definition step (perf : GstPerf) (e : event) : option (GstPerf * option Report) :=
  match e with
  | Buffer time size stat gpu => gst_perf_transform_ip perf time size stat gpu
  | Tick =>
      match gst_perf_update_bps perf with
      | Some perf => Some (perf, None)
      | None => None
      end
  end.

(** The element after a sequence of events, with the reports emitted on the
    way, oldest first, each with the clock reading of its buffer. *)
Fixpoint run (perf : GstPerf) (evs : list event) : option (GstPerf * list (Z * Report)) :=
  match evs with
  | [] => Some (perf, [])
  | e :: rest =>
      match step perf e with
      | None => None
      | Some (perf, r) =>
          match run perf rest with
          | None => None
          | Some (perf, rs) =>
              Some (perf,
                    match r, e with
                    | Some rep, Buffer time _ _ _ => (time, rep) :: rs
                    | _, _ => rs
                    end)
          end
      end
  end.

(** The element as [gst_perf_init] leaves it. *)
Definition gst_perf_init : GstPerf :=
  mkGstPerf GST_CLOCK_TIME_NONE d_zero 0 0 d_zero d_zero [] DEFAULT_BITRATE_WINDOW_SIZE 0
    0 0 DEFAULT_BITRATE_INTERVAL DEFAULT_BITRATE_INTERVAL 0 0 gpu_stats_zero false false.

(** [gst_perf_set_property] for the four writable properties. *)
Definition set_bitrate_window_size (perf : GstPerf) (v : Z) : GstPerf :=
  mkGstPerf (prev_timestamp perf) (fps perf) (frame_count perf) (frame_count_total perf)
    (bps perf) (mean_bps perf) (bps_window_buffer perf) v (bps_window_buffer_current perf)
    (byte_count perf) (byte_count_total perf) (bps_interval perf) (bps_running_interval perf)
    (prev_cpu_total perf) (prev_cpu_idle perf) (gpu_stats perf) (print_cpu_load perf)
    (gpu_stats_enabled perf).

Definition set_bitrate_interval (perf : GstPerf) (v : Z) : GstPerf :=
  mkGstPerf (prev_timestamp perf) (fps perf) (frame_count perf) (frame_count_total perf)
    (bps perf) (mean_bps perf) (bps_window_buffer perf) (bps_window_size perf)
    (bps_window_buffer_current perf) (byte_count perf) (byte_count_total perf) v
    (bps_running_interval perf) (prev_cpu_total perf) (prev_cpu_idle perf) (gpu_stats perf)
    (print_cpu_load perf) (gpu_stats_enabled perf).

Definition set_print_cpu_load (perf : GstPerf) (v : bool) : GstPerf :=
  mkGstPerf (prev_timestamp perf) (fps perf) (frame_count perf) (frame_count_total perf)
    (bps perf) (mean_bps perf) (bps_window_buffer perf) (bps_window_size perf)
    (bps_window_buffer_current perf) (byte_count perf) (byte_count_total perf)
    (bps_interval perf) (bps_running_interval perf) (prev_cpu_total perf) (prev_cpu_idle perf)
    (gpu_stats perf) v (gpu_stats_enabled perf).

Definition set_gpu_stats_enabled (perf : GstPerf) (v : bool) : GstPerf :=
  mkGstPerf (prev_timestamp perf) (fps perf) (frame_count perf) (frame_count_total perf)
    (bps perf) (mean_bps perf) (bps_window_buffer perf) (bps_window_size perf)
    (bps_window_buffer_current perf) (byte_count perf) (byte_count_total perf)
    (bps_interval perf) (bps_running_interval perf) (prev_cpu_total perf) (prev_cpu_idle perf)
    (gpu_stats perf) (print_cpu_load perf) v.

(** The sampler fired once per element of [byte_counts], the byte counter
    holding that many bytes when it fires. *)
Fixpoint sample_ticks (perf : GstPerf) (byte_counts : list Z) : option GstPerf :=
  match byte_counts with
  | [] => Some perf
  | n :: rest =>
      match gst_perf_update_bps (set_byte_count perf n) with
      | Some perf => sample_ticks perf rest
      | None => None
      end
  end.

(** The outcome of a failed GPU query, used in the concrete sessions. *)
Definition no_gpu : SpawnResult := mkSpawnResult false 1 EmptyString.


(** The query did not succeed: the command could not be run, or it exited
    with a non-zero status. *)
Definition gpu_query_failed (q : SpawnResult) : bool :=
  negb (spawn_ret q && (spawn_exit_status q =? 0)).



(** ** The specification's formulas

    Written from the words of the specification, over unbounded integers and
    over doubles, to be compared with the functions above. *)

(** "scale by 1000, add 5, integer-divide by 10". *)
Definition spec_round_percent (busy delta_total : Z) : Z :=
  (1000 * busy / delta_total + 5) / 10.

(** "if sample_count == 0, returns 0; otherwise returns
    ((sample_count-1)*old_average + new_sample) / sample_count". *)
Definition spec_update_running_average (sample_count : Z)
    (new_sample old_average : double) : double :=
  if sample_count =? 0 then d_of_Z 0
  else d_div (d_add (d_mul (d_of_Z (sample_count - 1)) old_average) new_sample)
             (d_of_Z sample_count).

(** "if window_size == 0, returns 0; otherwise returns
    (old_average*window_size - evicted_sample + new_sample) / window_size". *)
Definition spec_update_moving_average (window_size : Z)
    (old_average new_sample evicted_sample : double) : double :=
  if window_size =? 0 then d_of_Z 0
  else d_div (d_add (d_sub (d_mul old_average (d_of_Z window_size)) evicted_sample)
                    new_sample)
             (d_of_Z window_size).

(** "bps = bytes*8 / (interval_ms/1000)". *)
Definition spec_bps (bytes interval_ms : Z) : double :=
  d_div (d_of_Z (bytes * 8)) (d_div (d_of_Z interval_ms) (d_of_Z 1000)).

(** ** Invariants of a running session *)

(** The four counters are within their C types. *)
Definition counters_ok (perf : GstPerf) : Prop :=
  is_u64 (byte_count perf) /\ is_u64 (byte_count_total perf) /\
  is_u32 (frame_count perf) /\ is_u64 (frame_count_total perf).

(** The window buffer is as [gst_perf_start] allocates it for the
    configured size. *)
Definition window_ok (perf : GstPerf) : Prop :=
  is_u32 (bps_window_size perf) /\
  (bps_window_size perf <> 0 ->
   length (bps_window_buffer perf) = Z.to_nat (bps_window_size perf)).

(** Clock readings of the buffers of a trace: valid, and never earlier
    than [lo] nor than the reading of an earlier buffer. *)
Fixpoint times_from (lo : Z) (evs : list event) : Prop :=
  match evs with
  | [] => True
  | Tick :: rest => times_from lo rest
  | Buffer time _ _ _ :: rest =>
      lo <= time < GST_CLOCK_TIME_NONE /\ times_from time rest
  end.

(** The clock reading of the first buffer of a trace. *)
Fixpoint first_buffer_time (evs : list event) : option Z :=
  match evs with
  | [] => None
  | Tick :: rest => first_buffer_time rest
  | Buffer time _ _ _ :: _ => Some time
  end.

(** Every instant of [ts] is at least a second after the one before it,
    the first one after [p]. *)
Fixpoint spaced_from (p : Z) (ts : list Z) : Prop :=
  match ts with
  | [] => True
  | t :: rest => GST_SECOND <= t - p /\ spaced_from t rest
  end.

Definition spaced (ts : list Z) : Prop :=
  match ts with
  | [] => True
  | t :: rest => spaced_from t rest
  end.

(** ** Stopping, and the properties *)

(** [gst_perf_stop]: the element is cleared and [g_free] releases the
    window buffer. The pointer is left as it was; what it pointed to is
    gone, so the array has no slot that can still be read. The timeout
    source is removed: no [Tick] follows. *)
Definition gst_perf_stop (perf : GstPerf) : GstPerf :=
  let perf := gst_perf_clear perf in
  set_bps_window_buffer perf [].

(** The property ids, in the order of the [enum]. *)
Definition PROP_0 : Z := 0.
Definition PROP_PRINT_ARM_LOAD : Z := 1.
Definition PROP_PRINT_CPU_LOAD : Z := 2.
Definition PROP_GPU_STATS_ENABLED : Z := 3.
Definition PROP_BITRATE_WINDOW_SIZE : Z := 4.
Definition PROP_BITRATE_INTERVAL : Z := 5.

(** A [GValue] of one of the two types the properties have. *)
Inductive GValue : Type :=
  | G_BOOLEAN (b : bool)
  | G_UINT (u : Z).

(** GLib's accessors: a getter applied to a value of another type returns
    0, a setter applied to a value of another type leaves it alone. *)
Definition g_value_get_boolean (v : GValue) : bool :=
  match v with G_BOOLEAN b => b | G_UINT _ => false end.

Definition g_value_get_uint (v : GValue) : Z :=
  match v with G_UINT u => u | G_BOOLEAN _ => 0 end.

Definition g_value_set_boolean (v : GValue) (b : bool) : GValue :=
  match v with G_BOOLEAN _ => G_BOOLEAN b | G_UINT _ => v end.

Definition g_value_set_uint (v : GValue) (u : Z) : GValue :=
  match v with G_UINT _ => G_UINT u | G_BOOLEAN _ => v end.

(** [gst_perf_set_property]; the case of [PROP_PRINT_ARM_LOAD] falls
    through to that of [PROP_PRINT_CPU_LOAD]. *)
Definition gst_perf_set_property (perf : GstPerf) (property_id : Z) (value : GValue)
    : GstPerf :=
  match property_id with
  | 1 | 2 => set_print_cpu_load perf (g_value_get_boolean value)
  | 4 => set_bitrate_window_size perf (g_value_get_uint value)
  | 5 => set_bitrate_interval perf (g_value_get_uint value)
  | 3 => set_gpu_stats_enabled perf (g_value_get_boolean value)
  | _ => perf
  end.

(** [gst_perf_get_property]: returns [*value] as the call leaves it. *)
Definition gst_perf_get_property (perf : GstPerf) (property_id : Z) (value : GValue)
    : GValue :=
  match property_id with
  | 1 | 2 => g_value_set_boolean value (print_cpu_load perf)
  | 4 => g_value_set_uint value (bps_window_size perf)
  | 5 => g_value_set_uint value (bps_interval perf)
  | 3 => g_value_set_boolean value (gpu_stats_enabled perf)
  | _ => value
  end.

(** The type a property's value has. *)
Definition property_holds (property_id : Z) (value : GValue) : Prop :=
  match property_id, value with
  | (1 | 2 | 3), G_BOOLEAN _ => True
  | (4 | 5), G_UINT _ => True
  | _, _ => False
  end.

(** ** Auxiliary notions for the properties below *)

(** The buffers of a trace. *)
Fixpoint count_buffers (evs : list event) : Z :=
  match evs with
  | [] => 0
  | Buffer _ _ _ _ :: rest => 1 + count_buffers rest
  | Tick :: rest => count_buffers rest
  end.

(** No character of [s] is the delimiter. *)
Fixpoint comma_free (s : string) : bool :=
  match s with
  | EmptyString => true
  | String c rest => negb (is_comma c) && comma_free rest
  end.

(** A token as [strtok] can return it. *)
Definition is_token (s : string) : Prop := s <> EmptyString /\ comma_free s = true.

(** The tokens written one after the other, a comma between two. *)
Fixpoint join_commas (tokens : list string) : string :=
  match tokens with
  | [] => EmptyString
  | [t] => t
  | t :: rest => (t ++ String "," (join_commas rest))%string
  end.

(** A natural number in decimal notation. *)
Definition decimal (n : nat) : string :=
  DecimalString.NilEmpty.string_of_uint (Nat.to_uint n).

(** [s] is empty or starts with a character that is not a digit. *)
Definition ends_number (s : string) : Prop :=
  match s with
  | EmptyString => True
  | String c _ => isdigit c = false
  end.

(** [n] blanks. *)
Fixpoint blanks (n : nat) : string :=
  match n with
  | O => EmptyString
  | S m => String " " (blanks m)
  end.


(** The seven fields are within their C types. *)
Definition gpu_stats_ok (g : GpuStats) : Prop :=
  is_u32 (encoder_utilization g) /\ is_u32 (session_count g) /\
  is_u32 (average_fps g) /\ is_u64 (average_latency g) /\
  is_u32 (gpu_utilization g) /\ is_u32 (memory_used g) /\ is_u32 (memory_free g).

(** What a session cannot change: the properties, and the unused
    [bps_window_buffer_current]. *)
Definition configuration (perf : GstPerf) : Z * Z * Z * bool * bool :=
  (bps_window_size perf, bps_interval perf, bps_window_buffer_current perf,
   print_cpu_load perf, gpu_stats_enabled perf).

(** ** Machine arithmetic *)

Ltac split_ifs :=
  repeat match goal with
         | |- context [if ?b then _ else _] => destruct b eqn:?; cbn
         end.

Lemma wrap32_range (z : Z) : is_u32 (wrap32 z).
Proof. unfold is_u32, wrap32. apply Z.mod_pos_bound. lia. Qed.

Lemma wrap64_range (z : Z) : is_u64 (wrap64 z).
Proof. unfold is_u64, wrap64. apply Z.mod_pos_bound. lia. Qed.

Lemma wrap32_small (z : Z) : is_u32 z -> wrap32 z = z.
Proof. unfold is_u32, wrap32. intros H. apply Z.mod_small. exact H. Qed.

Lemma wrap64_small (z : Z) : is_u64 z -> wrap64 z = z.
Proof. unfold is_u64, wrap64. intros H. apply Z.mod_small. exact H. Qed.

(** [1000 * busy], reduced to 32 bits, stays a multiple of 8. *)
Lemma wrap32_scaled_mod8 (busy : Z) : wrap32 (1000 * busy) mod 8 = 0.
Proof.
  unfold wrap32.
  rewrite Z.mod_mod_divide by (exists (2 ^ 29); reflexivity).
  replace (1000 * busy) with (125 * busy * 8) by lia.
  apply Z.mod_mul. lia.
Qed.

(** Adding the rounding constant to the scaled quotient cannot overflow. *)
Lemma scaled_quotient_no_overflow (busy total : Z) :
  0 < total < 2 ^ 32 ->
  is_u32 (wrap32 (1000 * busy) / total + 5).
Proof.
  intros Ht.
  pose proof (wrap32_range (1000 * busy)) as Hx.
  pose proof (wrap32_scaled_mod8 busy) as H8.
  set (x := wrap32 (1000 * busy)) in *.
  unfold is_u32 in *.
  assert (Hq : 0 <= x / total) by (apply Z.div_pos; lia).
  split; [lia|].
  destruct (Z.eq_dec total 1) as [->|Hne].
  - rewrite Z.div_1_r.
    pose proof (Z.div_mod x 8 ltac:(lia)) as Hdm. lia.
  - assert (Hle : x / total <= x / 2) by (apply Z.div_le_compat_l; lia).
    assert (Hhalf : x / 2 < 2 ^ 31) by (apply Z.div_lt_upper_bound; lia).
    clear H8 Hq. generalize dependent (x / total).
    generalize dependent (x / 2). intros. lia.
Qed.

(** ** CPU load estimator *)

Lemma compute_cpu_load (self : GstPerf) (current_idle current_total : Z) :
  let delta_idle := wrap32 (current_idle - prev_cpu_idle self) in
  let delta_total := wrap32 (current_total - prev_cpu_total self) in
  snd (gst_perf_compute_cpu self current_idle current_total) =
    if delta_total =? 0 then 0
    else (wrap32 (1000 * wrap32 (delta_total - delta_idle)) / delta_total + 5) / 10.
Proof.
  intros delta_idle delta_total. unfold gst_perf_compute_cpu.
  fold delta_idle. fold delta_total.
  destruct (delta_total =? 0) eqn:E; [reflexivity|]. simpl.
  apply Z.eqb_neq in E.
  pose proof (wrap32_range (current_total - prev_cpu_total self)) as Ht.
  fold delta_total in Ht. unfold is_u32 in Ht.
  set (busy := wrap32 (delta_total - delta_idle)).
  assert (Hq : is_u32 (wrap32 (1000 * busy) / delta_total)).
  { pose proof (wrap32_range (1000 * busy)) as Hx. unfold is_u32 in *.
    split; [apply Z.div_pos; lia|].
    apply Z.div_lt_upper_bound; nia. }
  rewrite (wrap32_small _ Hq).
  rewrite wrap32_small; [reflexivity|].
  apply scaled_quotient_no_overflow. lia.
Qed.

Lemma compute_cpu_snapshot (self : GstPerf) (current_idle current_total : Z) :
  let self' := fst (gst_perf_compute_cpu self current_idle current_total) in
  prev_cpu_idle self' = current_idle /\ prev_cpu_total self' = current_total.
Proof.
  unfold gst_perf_compute_cpu.
  destruct (wrap32 (current_total - prev_cpu_total self) =? 0); split; reflexivity.
Qed.

(** What [gst_perf_compute_cpu] computes, in its own [guint32]
    arithmetic: the two deltas modulo 2^32, the current readings stored as
    the new previous ones, 0 when the total delta is 0 and otherwise
    [(1000 * busy / delta_total + 5) / 10] with the product reduced modulo
    2^32. As long as [1000 * busy] fits in 32 bits this is the formula over
    the integers; busy 333 of 1000 gives 33, busy 335 of 1000 gives 34, and
    (idle 100, total 200) followed by (idle 150, total 300) gives 50. *)
Lemma compute_cpu_formula (self : GstPerf) (current_idle current_total : Z) :
  let delta_idle := wrap32 (current_idle - prev_cpu_idle self) in
  let delta_total := wrap32 (current_total - prev_cpu_total self) in
  let busy := wrap32 (delta_total - delta_idle) in
  let self' := fst (gst_perf_compute_cpu self current_idle current_total) in
  let load := snd (gst_perf_compute_cpu self current_idle current_total) in
  (prev_cpu_idle self' = current_idle /\ prev_cpu_total self' = current_total) /\
  (delta_total = 0 -> load = 0) /\
  (delta_total <> 0 -> load = (wrap32 (1000 * busy) / delta_total + 5) / 10) /\
  (delta_total <> 0 -> 1000 * busy < 2 ^ 32 ->
   load = spec_round_percent busy delta_total) /\
  (forall s, snd (gst_perf_compute_cpu
                    (set_prev_cpu_idle (set_prev_cpu_total s 0) 0) 667 1000) = 33) /\
  (forall s, snd (gst_perf_compute_cpu
                    (set_prev_cpu_idle (set_prev_cpu_total s 0) 0) 665 1000) = 34) /\
  (forall s, snd (gst_perf_compute_cpu
                    (set_prev_cpu_idle (set_prev_cpu_total s 200) 100) 150 300) = 50).
Proof.
  intros delta_idle delta_total busy self' load.
  pose proof (compute_cpu_load self current_idle current_total) as Hl.
  cbv zeta in Hl. fold delta_idle delta_total busy load in Hl.
  split; [apply compute_cpu_snapshot|].
  split; [intros H0; rewrite Hl, H0; reflexivity|].
  assert (Hne : delta_total <> 0 ->
                load = (wrap32 (1000 * busy) / delta_total + 5) / 10).
  { intros Hn. rewrite Hl. apply Z.eqb_neq in Hn. rewrite Hn. reflexivity. }
  split; [exact Hne|].
  split.
  { intros Hn Hfit. rewrite (Hne Hn). unfold spec_round_percent.
    rewrite wrap32_small; [reflexivity|].
    pose proof (wrap32_range (delta_total - delta_idle)) as Hb.
    fold busy in Hb. unfold is_u32 in *. lia. }
  repeat split; intros s; reflexivity.
Qed.

(** A session that has seen (idle 100, total 200) and now reads
    (idle 1100, total 2200). *)
Lemma compute_cpu_formula_witness :
  snd (gst_perf_compute_cpu
         (set_prev_cpu_idle (set_prev_cpu_total gst_perf_init 200) 100) 1100 2200) =
  spec_round_percent 1000 2000.
Proof.
  pose proof (compute_cpu_formula
                (set_prev_cpu_idle (set_prev_cpu_total gst_perf_init 200) 100) 1100 2200)
    as H.
  cbv zeta in H. destruct H as (_ & _ & _ & H & _).
  apply H.
  - vm_compute. discriminate.
  - vm_compute. reflexivity.
Defined.

(** C1. The estimator takes the deltas, stores the readings and guards the
    zero total as the claim says, but [1000 * busy] is an [unsigned int]
    product: from 4294968 busy ticks on it wraps around 2^32 and the result
    is no longer [(1000 * busy / delta_total + 5) / 10]. First reading of a
    session (idle 0, total 5000000): 14 where the formula gives 100; first
    reading (idle 48384000, total 69120000): 5 where it gives 30; and
    between two readings 5000000 fully busy ticks apart: 14 again. *)
Theorem compute_cpu_scaling_overflows :
  (snd (gst_perf_compute_cpu (gst_perf_clear gst_perf_init) 0 5000000) = 14 /\
   spec_round_percent (5000000 - 0) 5000000 = 100) /\
  (snd (gst_perf_compute_cpu (gst_perf_clear gst_perf_init) 48384000 69120000) = 5 /\
   spec_round_percent (69120000 - 48384000) 69120000 = 30) /\
  (snd (gst_perf_compute_cpu
          (set_prev_cpu_idle (set_prev_cpu_total gst_perf_init 200) 100)
          100 5000200) = 14 /\
   spec_round_percent (5000000 - 0) 5000000 = 100) /\
  wrap32 (1000 * 5000000) = 705032704.
Proof.
  repeat match goal with |- _ /\ _ => split end; vm_compute; reflexivity.
Qed.

(** ** Averaging engine *)

(** C2. For every sample count of the [guint64] range, every new sample and
    every old average, [gst_perf_update_average] returns 0 when the count is
    0 and otherwise [((count - 1) * old + current) / count], that is the
    specification's running average, in double arithmetic. *)
Theorem update_average_formula (count : Z) (current old : double) :
  is_u64 count ->
  gst_perf_update_average count current old =
    spec_update_running_average count current old /\
  (count = 0 -> gst_perf_update_average count current old = d_zero) /\
  (count <> 0 ->
   gst_perf_update_average count current old =
     d_div (d_add (d_mul (d_of_Z (count - 1)) old) current) (d_of_Z count)).
Proof.
  intros Hc.
  assert (Hne : count <> 0 ->
                gst_perf_update_average count current old =
                d_div (d_add (d_mul (d_of_Z (count - 1)) old) current) (d_of_Z count)).
  { intros Hn. unfold gst_perf_update_average.
    apply Z.eqb_neq in Hn. rewrite Hn. apply Z.eqb_neq in Hn.
    rewrite wrap64_small; [reflexivity|]. unfold is_u64 in *. lia. }
  split; [|split].
  - unfold spec_update_running_average.
    destruct (count =? 0) eqn:E.
    + apply Z.eqb_eq in E. subst count. reflexivity.
    + apply Hne. apply Z.eqb_neq. exact E.
  - intros ->. reflexivity.
  - exact Hne.
Qed.

(** The third sample, 12.0, folded into an average of 6.0. *)
Lemma update_average_formula_witness :
  gst_perf_update_average 3 (d_of_Z 12) (d_of_Z 6) =
    spec_update_running_average 3 (d_of_Z 12) (d_of_Z 6) /\
  (3 = 0 -> gst_perf_update_average 3 (d_of_Z 12) (d_of_Z 6) = d_zero) /\
  (3 <> 0 ->
   gst_perf_update_average 3 (d_of_Z 12) (d_of_Z 6) =
     d_div (d_add (d_mul (d_of_Z (3 - 1)) (d_of_Z 6)) (d_of_Z 12)) (d_of_Z 3)).
Proof.
  apply (update_average_formula 3 (d_of_Z 12) (d_of_Z 6)).
  unfold is_u64. lia.
Defined.

(** The running average of 6.0 and 6.0 and 12.0 is 8.0. *)
Example update_average_three : gst_perf_update_average 3 (d_of_Z 12) (d_of_Z 6) = d_of_Z 8.
Proof. vm_compute. reflexivity. Qed.

(** C3. For every window size, old average, new sample and evicted sample,
    [gst_perf_update_moving_average] returns 0 when the window size is 0 and
    otherwise [(old_average * window_size - evicted + new) / window_size],
    in double arithmetic; a window of 3 with old average 10, new sample 13
    and evicted sample 1 gives exactly 14.0. *)
Theorem update_moving_average_formula
    (window_size : Z) (old_average new_sample evicted_sample : double) :
  gst_perf_update_moving_average window_size old_average new_sample evicted_sample =
    spec_update_moving_average window_size old_average new_sample evicted_sample /\
  gst_perf_update_moving_average 0 old_average new_sample evicted_sample = d_zero /\
  gst_perf_update_moving_average window_size old_average new_sample evicted_sample =
    (if window_size =? 0 then d_zero
     else d_div (d_add (d_sub (d_mul old_average (d_of_Z window_size)) evicted_sample)
                       new_sample)
                (d_of_Z window_size)) /\
  gst_perf_update_moving_average 3 (d_of_Z 10) (d_of_Z 13) (d_of_Z 1) = d_of_Z 14.
Proof.
  split; [|split; [|split]].
  - unfold gst_perf_update_moving_average, spec_update_moving_average.
    destruct (window_size =? 0); reflexivity.
  - reflexivity.
  - reflexivity.
  - vm_compute. reflexivity.
Qed.

(** ** Bitrate sampler *)

(** What one run of [gst_perf_update_bps] changes and what it leaves. *)
Lemma update_bps_inv (perf perf' : GstPerf) :
  gst_perf_update_bps perf = Some perf' ->
  byte_count perf' = 0 /\
  byte_count_total perf' = wrap64 (byte_count_total perf + 1) /\
  bps perf' = bits_per_second (wrap32 (byte_count perf)) (bps_running_interval perf) /\
  length (bps_window_buffer perf') = length (bps_window_buffer perf) /\
  prev_timestamp perf' = prev_timestamp perf /\
  frame_count perf' = frame_count perf /\
  frame_count_total perf' = frame_count_total perf /\
  bps_window_size perf' = bps_window_size perf /\
  bps_running_interval perf' = bps_running_interval perf /\
  gpu_stats perf' = gpu_stats perf /\
  gpu_stats_enabled perf' = gpu_stats_enabled perf.
Proof.
  unfold gst_perf_update_bps. cbn.
  destruct (bps_window_size perf =? 0).
  - intros [= <-]. cbn. repeat split.
  - destruct (bps_window_buffer perf !! Z.to_nat _) as [old|]; [|discriminate].
    intros [= <-]. cbn. rewrite length_insert. repeat split.
Qed.

(** With the buffer that [gst_perf_start] allocated, the sampler never reads
    outside it. *)
Lemma update_bps_defined (perf : GstPerf) :
  window_ok perf -> is_u64 (byte_count_total perf) ->
  exists perf', gst_perf_update_bps perf = Some perf'.
Proof.
  intros [Hws Hlen] Hbt. unfold gst_perf_update_bps. cbn.
  destruct (bps_window_size perf =? 0) eqn:E; [eexists; reflexivity|].
  apply Z.eqb_neq in E. specialize (Hlen E).
  destruct (bps_window_buffer perf !! Z.to_nat (buffer_current_idx
              (set_byte_count perf 0))) as [old|] eqn:L; [eexists; reflexivity|].
  exfalso. apply lookup_ge_None in L. cbn in L.
  unfold buffer_current_idx in L. cbn in L.
  unfold is_u32, is_u64 in *.
  pose proof (Z.mod_pos_bound (byte_count_total perf) (bps_window_size perf)
                ltac:(lia)) as Hm.
  rewrite wrap32_small in L by (unfold is_u32; lia).
  rewrite Hlen in L. lia.
Qed.

(** While eight times the byte counter fits in 32 bits, the published sample
    is the specification's. *)
Lemma update_bps_sample_small (perf perf' : GstPerf) :
  0 <= byte_count perf < 2 ^ 29 ->
  gst_perf_update_bps perf = Some perf' ->
  byte_count perf' = 0 /\
  bps perf' = spec_bps (byte_count perf) (bps_running_interval perf).
Proof.
  intros Hb H. apply update_bps_inv in H as (H0 & _ & Hbps & _).
  split; [exact H0|]. rewrite Hbps.
  unfold bits_per_second, spec_bps, GST_PERF_MS_PER_S, GST_PERF_BITS_PER_BYTE.
  rewrite (wrap32_small (byte_count perf)) by (unfold is_u32; lia).
  rewrite wrap32_small by (unfold is_u32; lia). reflexivity.
Qed.

(** 1000 bytes drained after a 1000 ms interval are published as 8000. *)
Example update_bps_8000 :
  option_map (fun p => (byte_count p, bps p))
    (gst_perf_update_bps (set_byte_count (gst_perf_start gst_perf_init) 1000)) =
  Some (0, d_of_Z 8000).
Proof. vm_compute. reflexivity. Qed.

(** C4. A tick drains the byte counter, but the drained [guint64] count is
    narrowed to a [guint] and multiplied by 8 in 32 bits before the
    division. With 2^29 bytes accumulated over a 1000 ms interval the
    published bitrate is 0, and with 2^32 + 1000 bytes it is 8000, that of
    1000 bytes; [bytes * 8 / (interval / 1000)] is 4294967296 and
    34359746368. *)
Theorem update_bps_narrows_drained_count :
  (let perf := set_byte_count (gst_perf_start gst_perf_init) (2 ^ 29) in
   exists perf',
     gst_perf_update_bps perf = Some perf' /\
     byte_count perf' = 0 /\
     bps perf' = d_zero /\
     spec_bps (byte_count perf) (bps_running_interval perf) = d_of_Z 4294967296) /\
  (let perf := set_byte_count (gst_perf_start gst_perf_init) (2 ^ 32 + 1000) in
   exists perf',
     gst_perf_update_bps perf = Some perf' /\
     byte_count perf' = 0 /\
     bps perf' = d_of_Z 8000 /\
     spec_bps (byte_count perf) (bps_running_interval perf) = d_of_Z 34359746368 /\
     bps perf' <> spec_bps (byte_count perf) (bps_running_interval perf)).
Proof.
  split; cbv zeta; eexists.
  - split; [vm_compute; reflexivity|].
    split; [vm_compute; reflexivity|]. split; vm_compute; reflexivity.
  - split; [vm_compute; reflexivity|].
    split; [vm_compute; reflexivity|]. split; [vm_compute; reflexivity|].
    split; [vm_compute; reflexivity|]. vm_compute. discriminate.
Qed.

(** A window of two slots fed the samples 10, 20 and 30 (bytes over an
    8000 ms interval): the third tick finds 10 in slot 0. *)
Lemma window_wraparound_example :
  let start :=
    gst_perf_start (set_bitrate_interval (set_bitrate_window_size gst_perf_init 2) 8000) in
  exists two three,
    sample_ticks start [10; 20] = Some two /\
    bps_window_buffer two = [d_of_Z 10; d_of_Z 20] /\
    Z.to_nat (byte_count_total two mod bps_window_size two) = 0%nat /\
    gst_perf_update_bps (set_byte_count two 30) = Some three /\
    bps three = d_of_Z 30 /\
    mean_bps three =
      gst_perf_update_moving_average 2 (mean_bps two) (d_of_Z 30) (d_of_Z 10) /\
    mean_bps three <>
      gst_perf_update_moving_average 2 (mean_bps two) (d_of_Z 30) (d_of_Z 20) /\
    bps_window_buffer three = [d_of_Z 30; d_of_Z 20].
Proof.
  cbv zeta. eexists. eexists.
  split; [vm_compute; reflexivity|].
  split; [vm_compute; reflexivity|].
  split; [vm_compute; reflexivity|].
  split; [vm_compute; reflexivity|].
  split; [vm_compute; reflexivity|].
  split; [vm_compute; reflexivity|].
  split; [vm_compute; discriminate|].
  vm_compute. reflexivity.
Qed.

(** C5. On a tick with a window of [window_size > 0] slots, the slot index
    is the number of samples taken so far modulo [window_size]; the value
    passed to the moving average as evicted sample is the one stored in that
    slot, and the new sample is written there, the other slots being left
    alone. With a window of 2 and the samples 10, 20, 30, the third tick
    evicts the first sample, 10, not the second. *)
Theorem update_bps_window_slot (perf : GstPerf) :
  window_ok perf -> bps_window_size perf <> 0 -> is_u64 (byte_count_total perf) ->
  let idx := Z.to_nat (byte_count_total perf mod bps_window_size perf) in
  let sample := bits_per_second (wrap32 (byte_count perf)) (bps_running_interval perf) in
  (exists perf' evicted,
     gst_perf_update_bps perf = Some perf' /\
     bps_window_buffer perf !! idx = Some evicted /\
     mean_bps perf' =
       gst_perf_update_moving_average (bps_window_size perf) (mean_bps perf) sample
         evicted /\
     bps_window_buffer perf' = <[idx := sample]> (bps_window_buffer perf) /\
     bps_window_buffer perf' !! idx = Some sample /\
     (forall j, j <> idx ->
        bps_window_buffer perf' !! j = bps_window_buffer perf !! j)) /\
  (let start :=
     gst_perf_start (set_bitrate_interval (set_bitrate_window_size gst_perf_init 2) 8000) in
   exists two three,
     sample_ticks start [10; 20] = Some two /\
     bps_window_buffer two = [d_of_Z 10; d_of_Z 20] /\
     Z.to_nat (byte_count_total two mod bps_window_size two) = 0%nat /\
     gst_perf_update_bps (set_byte_count two 30) = Some three /\
     bps three = d_of_Z 30 /\
     mean_bps three =
       gst_perf_update_moving_average 2 (mean_bps two) (d_of_Z 30) (d_of_Z 10) /\
     mean_bps three <>
       gst_perf_update_moving_average 2 (mean_bps two) (d_of_Z 30) (d_of_Z 20) /\
     bps_window_buffer three = [d_of_Z 30; d_of_Z 20]).
Proof.
  intros Hw Hne Hbt idx sample. split.
  - destruct Hw as [Hws Hlen]. specialize (Hlen Hne).
    unfold is_u32, is_u64 in *.
    pose proof (Z.mod_pos_bound (byte_count_total perf) (bps_window_size perf)
                  ltac:(lia)) as Hm.
    assert (Hidx : (idx < length (bps_window_buffer perf))%nat).
    { rewrite Hlen. unfold idx. lia. }
    destruct (lookup_lt_is_Some_2 _ _ Hidx) as [evicted Hev].
    assert (Hcur : Z.to_nat (buffer_current_idx (set_byte_count perf 0)) = idx).
    { unfold buffer_current_idx. cbn.
      rewrite wrap32_small by (unfold is_u32; lia). reflexivity. }
    apply Z.eqb_neq in Hne.
    exists (set_byte_count_total
              (set_bps
                 (set_mean_bps
                    (set_bps_window_buffer (set_byte_count perf 0)
                       (<[idx := sample]> (bps_window_buffer perf)))
                    (gst_perf_update_moving_average (bps_window_size perf)
                       (mean_bps perf) sample evicted))
                 sample)
              (wrap64 (byte_count_total perf + 1))), evicted.
    split.
    { unfold gst_perf_update_bps. rewrite Hcur. cbn. rewrite Hne, Hev.
      reflexivity. }
    split; [exact Hev|]. cbn.
    split; [reflexivity|]. split; [reflexivity|].
    split; [apply list_lookup_insert_eq; exact Hidx|].
    intros j Hj. apply list_lookup_insert_ne. congruence.
  - exact window_wraparound_example.
Qed.

(** A started session with a window of three slots, at its first tick. *)
Lemma update_bps_window_slot_witness :
  exists perf' evicted,
    gst_perf_update_bps
      (set_byte_count (gst_perf_start (set_bitrate_window_size gst_perf_init 3)) 1000) =
      Some perf' /\
    bps_window_buffer
      (set_byte_count (gst_perf_start (set_bitrate_window_size gst_perf_init 3)) 1000)
      !! 0%nat = Some evicted /\
    bps_window_buffer perf' !! 0%nat = Some (d_of_Z 8000).
Proof.
  pose proof (update_bps_window_slot
    (set_byte_count (gst_perf_start (set_bitrate_window_size gst_perf_init 3)) 1000))
    as H.
  destruct H as [(perf' & evicted & H1 & H2 & _ & _ & H5 & _) _].
  - split; [unfold is_u32; cbn; lia|intros _; reflexivity].
  - cbn. discriminate.
  - unfold is_u64. cbn. lia.
  - exists perf', evicted. split; [exact H1|]. split; [exact H2|]. exact H5.
Defined.

(** ** Data path *)

(** What the report block changes and what it leaves. *)
Lemma report_block_frame (perf : GstPerf) (time : Z)
    (stat : option ProcStat) (gpu : SpawnResult) :
  let perf' := fst (report_block perf time stat gpu) in
  prev_timestamp perf' = time /\
  frame_count perf' = 0 /\
  frame_count_total perf' = wrap64 (frame_count_total perf + 1) /\
  byte_count perf' = byte_count perf /\
  byte_count_total perf' = byte_count_total perf /\
  bps perf' = bps perf /\
  mean_bps perf' = mean_bps perf /\
  bps_window_buffer perf' = bps_window_buffer perf /\
  bps_window_size perf' = bps_window_size perf /\
  bps_running_interval perf' = bps_running_interval perf /\
  gpu_stats_enabled perf' = gpu_stats_enabled perf.
Proof.
  unfold report_block, gst_perf_cpu_get_load, gst_perf_compute_cpu,
    gst_perf_get_gpu_stats.
  destruct stat as [st|]; cbn; split_ifs; repeat split; congruence.
Qed.

(** What one buffer does to the element. *)
Lemma transform_ip_inv (perf perf' : GstPerf) (time size : Z)
    (stat : option ProcStat) (gpu : SpawnResult) (r : option Report) :
  gst_perf_transform_ip perf time size stat gpu = Some (perf', r) ->
  let due := report_due perf time in
  let reported := report_block perf time stat gpu in
  r = (if due then Some (snd reported) else None) /\
  prev_timestamp perf' = (if due then time else prev_timestamp perf) /\
  frame_count perf' = wrap32 ((if due then 0 else frame_count perf) + 1) /\
  frame_count_total perf' =
    (if due then wrap64 (frame_count_total perf + 1) else frame_count_total perf) /\
  byte_count perf' = 0 /\
  byte_count_total perf' = wrap64 (byte_count_total perf + 1) /\
  bps perf' =
    bits_per_second (wrap32 (wrap64 (byte_count perf + size)))
      (bps_running_interval perf) /\
  bps_window_size perf' = bps_window_size perf /\
  length (bps_window_buffer perf') = length (bps_window_buffer perf) /\
  gpu_stats perf' = (if due then gpu_stats (fst reported) else gpu_stats perf) /\
  gpu_stats_enabled perf' = gpu_stats_enabled perf.
Proof.
  intros H due reported. unfold gst_perf_transform_ip in H.
  fold due in H.
  pose proof (report_block_frame perf time stat gpu) as F. cbv zeta in F.
  fold reported in F. fold reported in H.
  destruct F as (F1 & F2 & F3 & F4 & F5 & F6 & F7 & F8 & F9 & F10 & F11).
  destruct due; [destruct reported as [p rep]|];
    match type of H with
    | match gst_perf_update_bps ?q with _ => _ end = _ =>
        destruct (gst_perf_update_bps q) as [p'|] eqn:U; [|discriminate]
    end;
    injection H as <- <-;
    apply update_bps_inv in U; cbn in *;
    destruct U as (U1 & U2 & U3 & U4 & U5 & U6 & U7 & U8 & U9 & U10 & U11);
    rewrite U1, U2, U3, U4, U5, U6, U7, U8, U10, U11;
    repeat split; congruence.
Qed.

(** The data path never reads outside the window buffer of a started
    session. *)
Lemma transform_ip_defined (perf : GstPerf) (time size : Z)
    (stat : option ProcStat) (gpu : SpawnResult) :
  window_ok perf -> is_u64 (byte_count_total perf) ->
  exists perf' r, gst_perf_transform_ip perf time size stat gpu = Some (perf', r).
Proof.
  intros Hw Hb. unfold gst_perf_transform_ip.
  pose proof (report_block_frame perf time stat gpu) as F. cbv zeta in F.
  destruct F as (_ & _ & _ & _ & F5 & _ & _ & F8 & F9 & _).
  destruct (report_due perf time); [destruct (report_block perf time stat gpu) as [p rep]|];
    match goal with
    | |- exists _ _, match gst_perf_update_bps ?q with _ => _ end = _ =>
        destruct (update_bps_defined q) as [p' Hp']
    end; cbn in *; try (rewrite Hp'; eauto);
    try (unfold window_ok in *; cbn; congruence).
Qed.

Lemma step_defined (perf : GstPerf) (e : event) :
  window_ok perf -> is_u64 (byte_count_total perf) ->
  exists perf' r, step perf e = Some (perf', r).
Proof.
  intros Hw Hb. destruct e as [time size stat gpu|]; cbn.
  - apply transform_ip_defined; assumption.
  - destruct (update_bps_defined perf Hw Hb) as [p' ->]. eauto.
Qed.

(** A step keeps the window buffer as allocated and the sample counter in
    range. *)
Lemma step_window_ok (perf perf' : GstPerf) (e : event) (r : option Report) :
  step perf e = Some (perf', r) ->
  window_ok perf -> window_ok perf' /\ is_u64 (byte_count_total perf').
Proof.
  intros H Hw. destruct e as [time size stat gpu|]; cbn in H.
  - apply transform_ip_inv in H. cbv zeta in H.
    destruct H as (_ & _ & _ & _ & _ & Hbt & _ & Hws & Hlen & _).
    split; [|rewrite Hbt; apply wrap64_range].
    unfold window_ok in *. rewrite Hws, Hlen. exact Hw.
  - destruct (gst_perf_update_bps perf) as [p|] eqn:U; [|discriminate].
    injection H as <- <-. apply update_bps_inv in U.
    destruct U as (_ & Hbt & _ & Hlen & _ & _ & _ & Hws & _).
    split; [|rewrite Hbt; apply wrap64_range].
    unfold window_ok in *. rewrite Hws, Hlen. exact Hw.
Qed.

Lemma run_defined (evs : list event) (perf : GstPerf) :
  window_ok perf -> is_u64 (byte_count_total perf) ->
  exists perf' rs, run perf evs = Some (perf', rs).
Proof.
  revert perf. induction evs as [|e rest IH]; intros perf Hw Hb; cbn.
  - eauto.
  - destruct (step_defined perf e Hw Hb) as (p1 & r & Hs). rewrite Hs.
    destruct (step_window_ok _ _ _ _ Hs Hw) as [Hw1 Hb1].
    destruct (IH p1 Hw1 Hb1) as (p2 & rs & Hr). rewrite Hr. eauto.
Qed.

(** Every state of a session has the window buffer as allocated. *)
Lemma run_window_ok (evs : list event) :
  forall (perf perf' : GstPerf) (rs : list (Z * Report)),
    run perf evs = Some (perf', rs) ->
    window_ok perf -> is_u64 (byte_count_total perf) ->
    window_ok perf' /\ is_u64 (byte_count_total perf').
Proof.
  induction evs as [|e rest IH]; intros perf perf' rs Hr Hw Hb; cbn in Hr.
  - injection Hr as <- _. split; assumption.
  - destruct (step perf e) as [[p1 r]|] eqn:Hs; [|discriminate].
    destruct (run p1 rest) as [[p2 rs']|] eqn:Hr'; [|discriminate].
    injection Hr as <- _.
    destruct (step_window_ok _ _ _ _ Hs Hw) as [Hw1 Hb1].
    apply (IH p1 p2 rs' Hr' Hw1 Hb1).
Qed.

Lemma start_window_ok (perf : GstPerf) :
  is_u32 (bps_window_size perf) ->
  window_ok (gst_perf_start perf) /\ is_u64 (byte_count_total (gst_perf_start perf)).
Proof.
  intros Hws. unfold gst_perf_start. cbn.
  destruct (bps_window_size perf =? 0) eqn:E; cbn.
  - apply Z.eqb_eq in E. split; [|unfold is_u64; lia].
    split; [exact Hws|]. cbn. congruence.
  - split; [|unfold is_u64; lia].
    split; [exact Hws|]. cbn. intros _. apply length_replicate.
Qed.

(** ** Report cadence *)

Lemma report_due_first (perf : GstPerf) (time : Z) :
  prev_timestamp perf = GST_CLOCK_TIME_NONE -> report_due perf time = true.
Proof.
  intros H. unfold report_due, GST_CLOCK_TIME_IS_VALID. rewrite H.
  rewrite Z.eqb_refl. reflexivity.
Qed.

Lemma report_due_valid (perf : GstPerf) (time : Z) :
  0 <= prev_timestamp perf <= time -> time < GST_CLOCK_TIME_NONE ->
  report_due perf time = (GST_SECOND <=? time - prev_timestamp perf).
Proof.
  intros Hp Ht. unfold report_due, GST_CLOCK_TIME_IS_VALID, GST_CLOCK_DIFF.
  unfold GST_CLOCK_TIME_NONE in *.
  replace (prev_timestamp perf =? 2 ^ 64 - 1) with false
    by (symmetry; apply Z.eqb_neq; lia).
  replace (time =? 2 ^ 64 - 1) with false by (symmetry; apply Z.eqb_neq; lia).
  rewrite wrap64_small by (unfold is_u64; lia). reflexivity.
Qed.

(** Once a report has set the baseline, reports keep a second apart. *)
Lemma cadence_after_report (evs : list event) :
  forall (perf perf' : GstPerf) (lo : Z) (rs : list (Z * Report)),
    0 <= prev_timestamp perf <= lo -> lo < GST_CLOCK_TIME_NONE ->
    times_from lo evs ->
    run perf evs = Some (perf', rs) ->
    spaced_from (prev_timestamp perf) (map fst rs).
Proof.
  induction evs as [|e rest IH]; intros perf perf' lo rs Hp Hlo Ht Hr; cbn in Hr.
  - injection Hr as <- <-. exact I.
  - destruct (step perf e) as [[p1 r]|] eqn:Hs; [|discriminate].
    destruct (run p1 rest) as [[p2 rs']|] eqn:Hr'; [|discriminate].
    injection Hr as <- <-.
    destruct e as [time size stat gpu|]; cbn in Hs, Ht.
    + destruct Ht as [Htime Ht].
      apply transform_ip_inv in Hs. cbv zeta in Hs.
      destruct Hs as (Hrep & Hprev & _).
      rewrite report_due_valid in Hrep, Hprev by lia.
      destruct (GST_SECOND <=? time - prev_timestamp perf) eqn:E.
      * subst r. cbn. apply Z.leb_le in E. split; [exact E|].
        rewrite <- Hprev.
        apply (IH p1 p2 time rs'); [rewrite Hprev; lia|lia|exact Ht|exact Hr'].
      * subst r. rewrite <- Hprev.
        apply (IH p1 p2 time rs'); [rewrite Hprev; lia|lia|exact Ht|exact Hr'].
    + destruct (gst_perf_update_bps perf) as [q|] eqn:U; [|discriminate].
      injection Hs as <- <-. apply update_bps_inv in U.
      destruct U as (_ & _ & _ & _ & Hprev & _).
      rewrite <- Hprev.
      apply (IH q p2 lo rs'); [rewrite Hprev; lia|lia|exact Ht|exact Hr'].
Qed.

(** From a cleared baseline, the first buffer reports and the cadence
    starts there. *)
Lemma cadence_from_start (evs : list event) :
  forall (perf perf' : GstPerf) (rs : list (Z * Report)),
    prev_timestamp perf = GST_CLOCK_TIME_NONE ->
    times_from 0 evs ->
    run perf evs = Some (perf', rs) ->
    (forall t, first_buffer_time evs = Some t -> head (map fst rs) = Some t) /\
    spaced (map fst rs).
Proof.
  induction evs as [|e rest IH]; intros perf perf' rs Hp Ht Hr; cbn in Hr.
  - injection Hr as <- <-. split; [discriminate|exact I].
  - destruct (step perf e) as [[p1 r]|] eqn:Hs; [|discriminate].
    destruct (run p1 rest) as [[p2 rs']|] eqn:Hr'; [|discriminate].
    injection Hr as <- <-.
    destruct e as [time size stat gpu|]; cbn in Hs, Ht.
    + destruct Ht as [Htime Ht].
      apply transform_ip_inv in Hs. cbv zeta in Hs.
      destruct Hs as (Hrep & Hprev & _).
      rewrite report_due_first in Hrep, Hprev by exact Hp.
      subst r. cbn. split; [intros t [= <-]; reflexivity|].
      rewrite <- Hprev.
      apply (cadence_after_report rest p1 p2 time rs');
        [rewrite Hprev; lia|lia|exact Ht|exact Hr'].
    + destruct (gst_perf_update_bps perf) as [q|] eqn:U; [|discriminate].
      injection Hs as <- <-. apply update_bps_inv in U.
      destruct U as (_ & _ & _ & _ & Hprev & _).
      apply (IH q p2 rs'); [congruence|exact Ht|exact Hr'].
Qed.

(** C6, as stated, fails: the very first buffer of a started session,
    5000 ns on the clock, emits a report. *)
Lemma first_buffer_reports :
  exists perf' rep,
    gst_perf_transform_ip (gst_perf_start gst_perf_init) 5000 1000 None no_gpu =
      Some (perf', Some rep) /\
    prev_timestamp perf' = 5000.
Proof.
  eexists. eexists. split; [vm_compute; reflexivity|]. reflexivity.
Qed.

(** C6, amended. In every session whose buffers carry valid, non-decreasing
    clock readings, the run is defined, the first buffer processed emits a
    report (its previous timestamp is invalid, which the guard of the report
    block accepts) and sets the baseline, and from then on every report
    comes at least one second after the report before it. *)
Theorem report_cadence (perf0 : GstPerf) (evs : list event) :
  is_u32 (bps_window_size perf0) ->
  times_from 0 evs ->
  exists perf rs,
    run (gst_perf_start perf0) evs = Some (perf, rs) /\
    (forall t, first_buffer_time evs = Some t -> head (map fst rs) = Some t) /\
    spaced (map fst rs).
Proof.
  intros Hws Ht.
  destruct (start_window_ok perf0 Hws) as [Hw Hb].
  destruct (run_defined evs (gst_perf_start perf0) Hw Hb) as (perf & rs & Hr).
  exists perf, rs. split; [exact Hr|].
  apply (cadence_from_start evs (gst_perf_start perf0) perf rs);
    [|exact Ht|exact Hr].
  unfold gst_perf_start. destruct (bps_window_size (gst_perf_clear perf0) =? 0);
    reflexivity.
Qed.

(** Three buffers: at 5000 ns, half a second later, and a second after the
    first. *)
Lemma report_cadence_witness :
  exists perf rs,
    run (gst_perf_start gst_perf_init)
      [Buffer 5000 1000 None no_gpu; Tick; Buffer 500005000 1000 None no_gpu;
       Buffer 1000005000 1000 None no_gpu] = Some (perf, rs) /\
    map fst rs = [5000; 1000005000].
Proof.
  destruct (report_cadence gst_perf_init
              [Buffer 5000 1000 None no_gpu; Tick; Buffer 500005000 1000 None no_gpu;
               Buffer 1000005000 1000 None no_gpu]) as (perf & rs & Hr & _ & _).
  - unfold is_u32. change (bps_window_size gst_perf_init) with 0. lia.
  - unfold times_from, GST_CLOCK_TIME_NONE. repeat split; lia.
  - exists perf, rs. split; [exact Hr|].
    vm_compute in Hr. injection Hr as _ <-. reflexivity.
Defined.

(** ** First CPU load of a session *)

(** C7, as stated, fails: right after [gst_perf_clear] the readings
    (idle 150, total 300) give a total delta of 300 and a load of 50, not 0. *)
Lemma first_cpu_load_is_computed :
  snd (gst_perf_compute_cpu (gst_perf_clear gst_perf_init) 150 300) = 50 /\
  wrap32 (300 - prev_cpu_total (gst_perf_clear gst_perf_init)) = 300.
Proof. split; vm_compute; reflexivity. Qed.

(** C7, amended. [gst_perf_clear] sets the previous snapshot to (0, 0), so
    on the first computation of a session the idle and total deltas are the
    current readings themselves. The total delta is zero, and the result 0,
    when the current total is 0; when it is not, and the idle reading does
    not exceed the total and [1000 * busy] fits in 32 bits, the estimator
    returns the computed percentage [(1000 * busy / total + 5) / 10] with
    [busy = total - idle], not an unknown value. *)
Theorem first_compute_cpu (perf : GstPerf) (current_idle current_total : Z) :
  is_u32 current_idle -> is_u32 current_total ->
  let load :=
    snd (gst_perf_compute_cpu (gst_perf_clear perf) current_idle current_total) in
  wrap32 (current_total - prev_cpu_total (gst_perf_clear perf)) = current_total /\
  wrap32 (current_idle - prev_cpu_idle (gst_perf_clear perf)) = current_idle /\
  (current_total = 0 -> load = 0) /\
  (current_total <> 0 -> current_idle <= current_total ->
   1000 * (current_total - current_idle) < 2 ^ 32 ->
   load = spec_round_percent (current_total - current_idle) current_total).
Proof.
  intros Hi Ht load.
  assert (Et : wrap32 (current_total - prev_cpu_total (gst_perf_clear perf)) =
               current_total).
  { cbn. rewrite Z.sub_0_r. apply wrap32_small. exact Ht. }
  assert (Ei : wrap32 (current_idle - prev_cpu_idle (gst_perf_clear perf)) =
               current_idle).
  { cbn. rewrite Z.sub_0_r. apply wrap32_small. exact Hi. }
  assert (El : load =
               if current_total =? 0 then 0
               else (wrap32 (1000 * wrap32 (current_total - current_idle))
                     / current_total + 5) / 10).
  { unfold load. rewrite compute_cpu_load. cbv zeta. rewrite Et, Ei. reflexivity. }
  split; [exact Et|]. split; [exact Ei|]. split.
  - intros ->. exact El.
  - intros Hne Hle Hfit. rewrite El.
    apply Z.eqb_neq in Hne. rewrite Hne.
    unfold is_u32 in Hi, Ht. unfold spec_round_percent.
    rewrite (wrap32_small (current_total - current_idle)) by (unfold is_u32; lia).
    rewrite wrap32_small by (unfold is_u32; lia). reflexivity.
Qed.

(** A first reading of 667 idle ticks out of 1000. *)
Lemma first_compute_cpu_witness :
  snd (gst_perf_compute_cpu (gst_perf_clear gst_perf_init) 667 1000) = 33.
Proof.
  pose proof (first_compute_cpu gst_perf_init 667 1000) as H.
  cbv zeta in H. destruct H as (_ & _ & _ & H).
  - unfold is_u32. lia.
  - unfold is_u32. lia.
  - rewrite H; [reflexivity|lia|lia|lia].
Defined.

(** ** Bitrate recomputation on the data path *)

(** C8. [gst_perf_transform_ip] ends with a call of [gst_perf_update_bps]:
    every buffer processed drains the byte counter, publishes a bitrate
    computed from the bytes since the last drain over a full sampling
    interval, and counts as a sample, whether or not the timer has fired. *)
Theorem transform_ip_recomputes_bitrate (perf perf' : GstPerf) (time size : Z)
    (stat : option ProcStat) (gpu : SpawnResult) (r : option Report) :
  gst_perf_transform_ip perf time size stat gpu = Some (perf', r) ->
  byte_count perf' = 0 /\
  byte_count_total perf' = wrap64 (byte_count_total perf + 1) /\
  bps perf' =
    bits_per_second (wrap32 (wrap64 (byte_count perf + size)))
      (bps_running_interval perf).
Proof.
  intros H. apply transform_ip_inv in H. cbv zeta in H.
  destruct H as (_ & _ & _ & _ & H1 & H2 & H3 & _).
  split; [exact H1|]. split; [exact H2|exact H3].
Qed.

(** One buffer of 1000 bytes into a session just started with the default
    interval: no tick, and yet the counter is drained, one sample is counted
    and 8000 is published. *)
Lemma transform_ip_recomputes_bitrate_witness :
  exists perf' r,
    gst_perf_transform_ip (gst_perf_start gst_perf_init) 5000 1000 None no_gpu =
      Some (perf', r) /\
    byte_count perf' = 0 /\ byte_count_total perf' = 1 /\ bps perf' = d_of_Z 8000.
Proof.
  destruct (gst_perf_transform_ip (gst_perf_start gst_perf_init) 5000 1000 None no_gpu)
    as [[perf' r]|] eqn:E; [|vm_compute in E; discriminate].
  exists perf', r. split; [reflexivity|].
  destruct (transform_ip_recomputes_bitrate _ _ _ _ _ _ _ E) as (H1 & H2 & H3).
  split; [exact H1|]. split; [rewrite H2; vm_compute; reflexivity|].
  rewrite H3. vm_compute. reflexivity.
Defined.

(** ** Counters of a running session *)

(** One event, as long as the two totals are below their last value. *)
Lemma step_counters (perf perf' : GstPerf) (e : event) (r : option Report) :
  step perf e = Some (perf', r) ->
  counters_ok perf ->
  byte_count_total perf + 1 < 2 ^ 64 ->
  frame_count_total perf + 1 < 2 ^ 64 ->
  counters_ok perf' /\
  byte_count perf' = 0 /\
  byte_count_total perf' = byte_count_total perf + 1 /\
  match e, r with
  | Buffer _ _ _ _, Some _ =>
      frame_count perf' = 1 /\ frame_count_total perf' = frame_count_total perf + 1
  | Buffer _ _ _ _, None =>
      frame_count perf' = wrap32 (frame_count perf + 1) /\
      frame_count_total perf' = frame_count_total perf
  | Tick, _ =>
      frame_count perf' = frame_count perf /\
      frame_count_total perf' = frame_count_total perf
  end.
Proof.
  intros H (Hbc & Hbt & Hfc & Hft) Lb Lf.
  unfold counters_ok, is_u64, is_u32 in *.
  destruct e as [time size stat gpu|]; cbn in H.
  - apply transform_ip_inv in H. cbv zeta in H.
    destruct H as (Hr & _ & Hf & Hftot & Hb0 & Hbtot & _).
    rewrite wrap64_small in Hbtot by (unfold is_u64; lia).
    pose proof (wrap32_range (frame_count perf + 1)) as Hw. unfold is_u32 in Hw.
    destruct (report_due perf time); subst r.
    + rewrite wrap64_small in Hftot by (unfold is_u64; lia).
      change (wrap32 (0 + 1)) with 1 in Hf.
      rewrite Hb0, Hbtot, Hf, Hftot. repeat split; lia.
    + rewrite Hb0, Hbtot, Hf, Hftot. repeat split; lia.
  - destruct (gst_perf_update_bps perf) as [q|] eqn:U; [|discriminate].
    injection H as <- <-. apply update_bps_inv in U.
    destruct U as (Hb0 & Hbtot & _ & _ & _ & Hf & Hftot & _).
    rewrite wrap64_small in Hbtot by (unfold is_u64; lia).
    rewrite Hb0, Hbtot, Hf, Hftot. repeat split; lia.
Qed.

(** After [n] events of a session the sample counter is [n] and the report
    counter at most [n]. *)
Lemma run_counters (evs : list event) :
  forall (perf perf' : GstPerf) (rs : list (Z * Report)),
    run perf evs = Some (perf', rs) ->
    counters_ok perf ->
    byte_count_total perf + Z.of_nat (length evs) < 2 ^ 64 ->
    frame_count_total perf + Z.of_nat (length evs) < 2 ^ 64 ->
    counters_ok perf' /\
    byte_count_total perf' = byte_count_total perf + Z.of_nat (length evs) /\
    frame_count_total perf <= frame_count_total perf'
      <= frame_count_total perf + Z.of_nat (length evs).
Proof.
  induction evs as [|e rest IH]; intros perf perf' rs Hr Hc Lb Lf; cbn in Hr.
  - injection Hr as <- <-. cbn. repeat split; try apply Hc; lia.
  - destruct (step perf e) as [[p1 r]|] eqn:Hs; [|discriminate].
    destruct (run p1 rest) as [[p2 rs']|] eqn:Hr'; [|discriminate].
    injection Hr as <- _.
    change (length (e :: rest)) with (S (length rest)) in *.
    rewrite Nat2Z.inj_succ in *.
    destruct (step_counters _ _ _ _ Hs Hc ltac:(lia) ltac:(lia))
      as (Hc1 & _ & Hb1 & Hm).
    assert (Hf1 : frame_count_total perf <= frame_count_total p1
                  <= frame_count_total perf + 1).
    { destruct e, r; destruct Hm as [_ ->]; lia. }
    destruct (IH p1 p2 rs' Hr' Hc1 ltac:(lia) ltac:(lia)) as (Hc2 & Hb2 & Hf2).
    split; [exact Hc2|]. split; lia.
Qed.

Lemma start_counters (perf : GstPerf) :
  counters_ok (gst_perf_start perf) /\
  byte_count_total (gst_perf_start perf) = 0 /\
  frame_count_total (gst_perf_start perf) = 0.
Proof.
  unfold gst_perf_start, counters_ok, is_u64, is_u32.
  destruct (bps_window_size (gst_perf_clear perf) =? 0); cbn; repeat split; lia.
Qed.

(** C9. In a running session (fewer than 2^64 - 1 events since
    [gst_perf_start]) every event keeps the four counters within their
    unsigned types, never decreases [byte_count_total] nor
    [frame_count_total], and resets [byte_count] to zero at each drain and
    [frame_count] at each report, and at no other time: a buffer that emits
    no report and a tick leave [frame_count] counting. *)
Theorem session_counters (perf0 perf perf' : GstPerf) (evs : list event)
    (rs : list (Z * Report)) (e : event) (r : option Report) :
  run (gst_perf_start perf0) evs = Some (perf, rs) ->
  Z.of_nat (length evs) < 2 ^ 64 - 1 ->
  step perf e = Some (perf', r) ->
  counters_ok (gst_perf_start perf0) /\ counters_ok perf /\ counters_ok perf' /\
  byte_count_total perf <= byte_count_total perf' /\
  frame_count_total perf <= frame_count_total perf' /\
  byte_count perf' = 0 /\
  match e, r with
  | Buffer _ _ _ _, Some _ => frame_count perf' = 1
  | Buffer _ _ _ _, None => frame_count perf' = wrap32 (frame_count perf + 1)
  | Tick, _ => frame_count perf' = frame_count perf
  end.
Proof.
  intros Hr Hlen Hs.
  destruct (start_counters perf0) as (Hc0 & Hb0 & Hf0).
  destruct (run_counters evs _ _ _ Hr Hc0 ltac:(lia) ltac:(lia)) as (Hc & Hb & Hf).
  destruct (step_counters _ _ _ _ Hs Hc ltac:(lia) ltac:(lia))
    as (Hc' & Hz & Hb' & Hm).
  split; [exact Hc0|]. split; [exact Hc|]. split; [exact Hc'|].
  split; [lia|]. split; [destruct e, r; destruct Hm as [_ ->]; lia|].
  split; [exact Hz|]. destruct e, r; apply Hm.
Qed.

(** Two buffers a second apart, then a tick. *)
Lemma session_counters_witness :
  match run (gst_perf_start gst_perf_init)
          [Buffer 5000 1000 None no_gpu; Buffer 1000005000 1000 None no_gpu] with
  | Some (perf, _) =>
      match step perf Tick with
      | Some (perf', _) =>
          byte_count_total perf <= byte_count_total perf' /\ byte_count perf' = 0
      | None => False
      end
  | None => False
  end.
Proof.
  destruct (run (gst_perf_start gst_perf_init)
              [Buffer 5000 1000 None no_gpu; Buffer 1000005000 1000 None no_gpu])
    as [[perf rs]|] eqn:Hr; [|vm_compute in Hr; discriminate].
  destruct (step perf Tick) as [[perf' r]|] eqn:Hs.
  - destruct (session_counters gst_perf_init perf perf' _ rs Tick r Hr) as
      (_ & _ & _ & Hb & _ & Hz & _).
    + cbn. lia.
    + exact Hs.
    + split; [exact Hb|exact Hz].
  - vm_compute in Hr. injection Hr as <- _. vm_compute in Hs. discriminate.
Defined.

(** ** GPU fields of a report *)

Lemma gpu_stats_store_ge7 (g : GpuStats) (i : Z) (token : string) :
  7 <= i -> gpu_stats_store g i token = g.
Proof.
  intros Hi. unfold gpu_stats_store.
  destruct i as [|p|p]; try lia.
  destruct p as [[[p|p|]|[p|p|]|]|[[p|p|]|[p|p|]|]|]; try lia; reflexivity.
Qed.

Lemma gpu_stats_loop_ge7 (tokens : list string) :
  forall (g : GpuStats) (i : Z), 7 <= i -> gpu_stats_loop g i tokens = g.
Proof.
  induction tokens as [|token rest IH]; intros g i Hi; cbn; [reflexivity|].
  rewrite gpu_stats_store_ge7 by exact Hi. apply IH. lia.
Qed.




Lemma get_gpu_stats_snapshot (perf : GstPerf) (q : SpawnResult) :
  gpu_stats (fst (gst_perf_get_gpu_stats perf q)) =
    if gpu_query_failed q then gpu_stats perf
    else gpu_stats_loop (gpu_stats perf) 0 (strtok_all (spawn_output q)).
Proof.
  unfold gst_perf_get_gpu_stats, gpu_query_failed.
  destruct (spawn_ret q && (spawn_exit_status q =? 0)); reflexivity.
Qed.






(** * Further properties of the element *)

(** A closed range goal [lo <= n < hi], by evaluation. *)
Ltac closed_range := vm_compute; split; [discriminate|reflexivity].

(** ** The CPU load as a percentage *)

(** [(q + 5) / 10] for [q = 1000 * b / t] is [100 * b / t] rounded to the
    nearest integer, halves upwards. *)
Lemma round_percent_nearest (b t : Z) :
  0 <= b -> 0 < t ->
  200 * b - t < 2 * t * spec_round_percent b t <= 200 * b + t.
Proof.
  intros Hb Ht. unfold spec_round_percent.
  pose proof (Z.mul_div_le (1000 * b) t Ht) as Hq1.
  pose proof (Z.mul_succ_div_gt (1000 * b) t Ht) as Hq2.
  generalize dependent (1000 * b / t). intros q Hq1 Hq2.
  pose proof (Z.mul_div_le (q + 5) 10 ltac:(lia)) as Hl1.
  pose proof (Z.mul_succ_div_gt (q + 5) 10 ltac:(lia)) as Hl2.
  generalize dependent ((q + 5) / 10). intros l Hl1 Hl2.
  split; nia.
Qed.

(** The load is the busy share of the elapsed ticks in percent, rounded to
    the nearest integer, and lies between 0 and 100, provided the idle
    ticks elapsed do not exceed the total and [1000 * busy] fits in 32
    bits. *)
Theorem compute_cpu_is_rounded_percentage
    (self : GstPerf) (current_idle current_total : Z) :
  let delta_idle := wrap32 (current_idle - prev_cpu_idle self) in
  let delta_total := wrap32 (current_total - prev_cpu_total self) in
  let busy := delta_total - delta_idle in
  let load := snd (gst_perf_compute_cpu self current_idle current_total) in
  delta_total <> 0 -> delta_idle <= delta_total -> 1000 * busy < 2 ^ 32 ->
  0 <= load <= 100 /\
  200 * busy - delta_total < 2 * delta_total * load <= 200 * busy + delta_total.
Proof.
  intros delta_idle delta_total busy load Hne Hle Hfit.
  pose proof (wrap32_range (current_idle - prev_cpu_idle self)) as Hi.
  pose proof (wrap32_range (current_total - prev_cpu_total self)) as Ht.
  fold delta_idle in Hi. fold delta_total in Ht. unfold is_u32 in Hi, Ht.
  assert (El : load = spec_round_percent busy delta_total).
  { unfold load. rewrite compute_cpu_load. cbv zeta.
    fold delta_idle. fold delta_total. fold busy.
    apply Z.eqb_neq in Hne. rewrite Hne.
    rewrite (wrap32_small busy) by (unfold is_u32, busy; lia).
    rewrite wrap32_small by (unfold is_u32, busy in *; lia). reflexivity. }
  pose proof (round_percent_nearest busy delta_total ltac:(unfold busy; lia)
                ltac:(lia)) as Hr.
  rewrite <- El in Hr. split; [|exact Hr].
  assert (busy <= delta_total) by (unfold busy; lia).
  assert (0 <= busy) by (unfold busy; lia).
  generalize dependent load. intros load _ Hr. nia.
Qed.

(** 250 busy ticks out of 400. *)
Lemma compute_cpu_is_rounded_percentage_witness :
  snd (gst_perf_compute_cpu
         (set_prev_cpu_idle (set_prev_cpu_total gst_perf_init 1000) 700) 850 1400) = 63.
Proof.
  pose proof (compute_cpu_is_rounded_percentage
                (set_prev_cpu_idle (set_prev_cpu_total gst_perf_init 1000) 700) 850 1400)
    as H.
  cbv zeta in H.
  change (prev_cpu_idle (set_prev_cpu_idle (set_prev_cpu_total gst_perf_init 1000) 700))
    with 700 in H.
  change (prev_cpu_total (set_prev_cpu_idle (set_prev_cpu_total gst_perf_init 1000) 700))
    with 1000 in H.
  change (wrap32 (850 - 700)) with 150 in H.
  change (wrap32 (1400 - 1000)) with 400 in H.
  destruct H as [_ [H1 H2]]; [lia|lia|lia|].
  generalize dependent (snd (gst_perf_compute_cpu
    (set_prev_cpu_idle (set_prev_cpu_total gst_perf_init 1000) 700) 850 1400)).
  intros load H1 H2. lia.
Defined.

(** Readings that have not moved since the last call give a load of 0 and
    leave the snapshot where it was. *)
Theorem compute_cpu_same_reading (self : GstPerf) (current_idle current_total : Z) :
  let once := fst (gst_perf_compute_cpu self current_idle current_total) in
  gst_perf_compute_cpu once current_idle current_total = (once, 0).
Proof.
  intros once.
  destruct (compute_cpu_snapshot self current_idle current_total) as [Hi Ht].
  cbv zeta in Hi, Ht. fold once in Hi, Ht.
  unfold gst_perf_compute_cpu at 1. rewrite Ht, Z.sub_diag.
  change (wrap32 0 =? 0) with true. cbv iota.
  unfold once, gst_perf_compute_cpu.
  destruct (wrap32 (current_total - prev_cpu_total self) =? 0); reflexivity.
Qed.

(** The OS counters may wrap around 2^32 between two calls: the load is the
    one of the ticks really elapsed. *)
Theorem compute_cpu_across_wraparound (self : GstPerf) (elapsed_idle elapsed_total : Z) :
  is_u32 elapsed_idle -> is_u32 elapsed_total ->
  snd (gst_perf_compute_cpu self
         (wrap32 (prev_cpu_idle self + elapsed_idle))
         (wrap32 (prev_cpu_total self + elapsed_total))) =
  snd (gst_perf_compute_cpu (gst_perf_clear self) elapsed_idle elapsed_total).
Proof.
  intros Hi Ht.
  assert (W : forall p d, is_u32 d -> wrap32 (wrap32 (p + d) - p) = d).
  { intros p d Hd. unfold wrap32. rewrite Zminus_mod_idemp_l.
    replace (p + d - p) with d by lia. apply Z.mod_small. exact Hd. }
  rewrite !compute_cpu_load. cbv zeta.
  rewrite (W _ _ Hi), (W _ _ Ht).
  change (prev_cpu_total (gst_perf_clear self)) with 0.
  change (prev_cpu_idle (gst_perf_clear self)) with 0.
  rewrite !Z.sub_0_r, (wrap32_small _ Hi), (wrap32_small _ Ht). reflexivity.
Qed.

(** The total counter at 2^32 - 100 and 400 ticks later. *)
Lemma compute_cpu_across_wraparound_witness :
  snd (gst_perf_compute_cpu
         (set_prev_cpu_idle (set_prev_cpu_total gst_perf_init (2 ^ 32 - 100)) 700)
         850 300) = 63.
Proof.
  pose proof (compute_cpu_across_wraparound
                (set_prev_cpu_idle (set_prev_cpu_total gst_perf_init (2 ^ 32 - 100)) 700)
                150 400) as H.
  change (wrap32 (prev_cpu_idle (set_prev_cpu_idle
            (set_prev_cpu_total gst_perf_init (2 ^ 32 - 100)) 700) + 150))
    with 850 in H.
  change (wrap32 (prev_cpu_total (set_prev_cpu_idle
            (set_prev_cpu_total gst_perf_init (2 ^ 32 - 100)) 700) + 400))
    with 300 in H.
  rewrite H; [vm_compute; reflexivity|unfold is_u32; lia|unfold is_u32; lia].
Defined.

(** ** The window as a circular buffer *)

(** The slot a tick writes, and what it writes. *)
Lemma update_bps_buffer (perf perf' : GstPerf) :
  gst_perf_update_bps perf = Some perf' ->
  bps_window_size perf <> 0 ->
  bps_window_buffer perf' =
    <[Z.to_nat (buffer_current_idx perf) :=
        bits_per_second (wrap32 (byte_count perf)) (bps_running_interval perf)]>
      (bps_window_buffer perf).
Proof.
  unfold gst_perf_update_bps. cbn. intros H Hne.
  apply Z.eqb_neq in Hne. rewrite Hne in H.
  change (buffer_current_idx (set_byte_count perf 0)) with (buffer_current_idx perf) in H.
  destruct (bps_window_buffer perf !! Z.to_nat (buffer_current_idx perf)); [|discriminate].
  injection H as <-. reflexivity.
Qed.

Lemma buffer_current_idx_mod (perf : GstPerf) :
  is_u32 (bps_window_size perf) -> bps_window_size perf <> 0 ->
  0 <= byte_count_total perf ->
  buffer_current_idx perf = byte_count_total perf mod bps_window_size perf.
Proof.
  intros Hws Hne Hc. unfold buffer_current_idx, is_u32 in *.
  pose proof (Z.mod_pos_bound (byte_count_total perf) (bps_window_size perf)
                ltac:(lia)) as Hm.
  apply wrap32_small. unfold is_u32. lia.
Qed.

(** Fewer than [ws] steps further on, the index is another one. *)
Lemma mod_shift_ne (c d ws : Z) :
  0 < d < ws -> (c + d) mod ws <> c mod ws.
Proof.
  intros Hd E.
  assert (H0 : (c + d - c) mod ws = 0).
  { rewrite Zminus_mod, E, Z.sub_diag. apply Z.mod_0_l. lia. }
  replace (c + d - c) with d in H0 by lia.
  rewrite Z.mod_small in H0 by lia. lia.
Qed.

(** Ticks leave alone the slots that are not their turn. *)
Lemma sample_ticks_slot_untouched (byte_counts : list Z) :
  forall (perf perf' : GstPerf) (i : nat),
    window_ok perf -> bps_window_size perf <> 0 ->
    0 <= byte_count_total perf ->
    byte_count_total perf + Z.of_nat (length byte_counts) < 2 ^ 64 ->
    sample_ticks perf byte_counts = Some perf' ->
    (forall j, (j < length byte_counts)%nat ->
       Z.to_nat ((byte_count_total perf + Z.of_nat j) mod bps_window_size perf) <> i) ->
    bps_window_buffer perf' !! i = bps_window_buffer perf !! i.
Proof.
  induction byte_counts as [|b rest IH]; intros perf perf' i Hw Hne Hc Hlen Hs Hj;
    cbn in Hs.
  - injection Hs as <-. reflexivity.
  - destruct (gst_perf_update_bps (set_byte_count perf b)) as [p1|] eqn:U;
      [|discriminate].
    pose proof (update_bps_buffer _ _ U Hne) as Hbuf.
    pose proof (update_bps_inv _ _ U) as (_ & Hbt & _ & Hl & _ & _ & _ & Hws & Hint & _).
    cbn in Hbuf, Hbt, Hl, Hws, Hint.
    change (length (b :: rest)) with (S (length rest)) in *.
    rewrite Nat2Z.inj_succ in Hlen.
    rewrite wrap64_small in Hbt by (unfold is_u64; lia).
    assert (Hw1 : window_ok p1) by (unfold window_ok in *; rewrite Hws, Hl; exact Hw).
    assert (Hne1 : bps_window_size p1 <> 0) by congruence.
    assert (Hj1 : forall j, (j < length rest)%nat ->
              Z.to_nat ((byte_count_total p1 + Z.of_nat j) mod bps_window_size p1) <> i).
    { intros j Hlt. specialize (Hj (S j) ltac:(lia)).
      rewrite Hbt, Hws. rewrite Nat2Z.inj_succ in Hj.
      replace (byte_count_total perf + 1 + Z.of_nat j)
        with (byte_count_total perf + Z.succ (Z.of_nat j)) by lia.
      exact Hj. }
    rewrite (IH p1 perf' i Hw1 Hne1 ltac:(lia) ltac:(lia) Hs Hj1).
    rewrite Hbuf. apply list_lookup_insert_ne.
    change (buffer_current_idx (set_byte_count perf b))
      with (buffer_current_idx perf).
    rewrite buffer_current_idx_mod by (try apply Hw; assumption).
    specialize (Hj 0%nat ltac:(lia)). rewrite Z.add_0_r in Hj. exact Hj.
Qed.

(** After any number of ticks the window holds the last [window_size]
    samples, the sample number [n] of the session in slot [n mod
    window_size]. *)
Theorem window_holds_last_samples (byte_counts : list Z) :
  forall (perf : GstPerf),
    window_ok perf -> bps_window_size perf <> 0 ->
    0 <= byte_count_total perf ->
    byte_count_total perf + Z.of_nat (length byte_counts) < 2 ^ 64 ->
    exists perf',
      sample_ticks perf byte_counts = Some perf' /\
      length (bps_window_buffer perf') = Z.to_nat (bps_window_size perf) /\
      forall (k : nat) (b : Z),
        byte_counts !! k = Some b ->
        (length byte_counts <= k + Z.to_nat (bps_window_size perf))%nat ->
        bps_window_buffer perf'
          !! Z.to_nat ((byte_count_total perf + Z.of_nat k) mod bps_window_size perf) =
        Some (bits_per_second (wrap32 b) (bps_running_interval perf)).
Proof.
  induction byte_counts as [|b rest IH]; intros perf Hw Hne Hc Hlen.
  - exists perf. split; [reflexivity|]. split; [apply Hw; exact Hne|].
    intros k b' Hk. discriminate.
  - change (length (b :: rest)) with (S (length rest)) in *.
    rewrite Nat2Z.inj_succ in Hlen.
    assert (Hwb : window_ok (set_byte_count perf b)) by exact Hw.
    destruct (update_bps_defined (set_byte_count perf b) Hwb) as [p1 U].
    { cbn. unfold is_u64. lia. }
    pose proof (update_bps_buffer _ _ U Hne) as Hbuf.
    pose proof (update_bps_inv _ _ U) as (_ & Hbt & _ & Hl & _ & _ & _ & Hws & Hint & _).
    cbn in Hbuf, Hbt, Hl, Hws, Hint.
    change (buffer_current_idx (set_byte_count perf b))
      with (buffer_current_idx perf) in Hbuf.
    rewrite buffer_current_idx_mod in Hbuf by (try apply Hw; assumption).
    rewrite wrap64_small in Hbt by (unfold is_u64; lia).
    assert (Hw1 : window_ok p1) by (unfold window_ok in *; rewrite Hws, Hl; exact Hw).
    destruct (IH p1 Hw1 ltac:(congruence) ltac:(lia) ltac:(lia))
      as (perf' & Hs & Hlen' & Hslots).
    exists perf'. cbn. rewrite U. split; [exact Hs|].
    split; [rewrite Hlen', Hws; reflexivity|].
    destruct Hw as [Hu32 Hwl]. specialize (Hwl Hne). unfold is_u32 in Hu32.
    intros k b' Hk Hlast. destruct k as [|k]; cbn in Hk.
    + injection Hk as <-. rewrite Z.add_0_r.
      assert (Hne1 : bps_window_size p1 <> 0) by congruence.
      rewrite (sample_ticks_slot_untouched rest p1 perf' _ Hw1 Hne1 ltac:(lia)
                 ltac:(lia) Hs).
      * rewrite Hbuf. apply list_lookup_insert_eq. rewrite Hwl.
        pose proof (Z.mod_pos_bound (byte_count_total perf) (bps_window_size perf)
                      ltac:(lia)) as Hm.
        generalize dependent (byte_count_total perf mod bps_window_size perf).
        intros. lia.
      * intros j Hj. rewrite Hbt, Hws.
        pose proof (mod_shift_ne (byte_count_total perf) (1 + Z.of_nat j)
                      (bps_window_size perf) ltac:(lia)) as Hne'.
        replace (byte_count_total perf + 1 + Z.of_nat j)
          with (byte_count_total perf + (1 + Z.of_nat j)) by lia.
        pose proof (Z.mod_pos_bound (byte_count_total perf + (1 + Z.of_nat j))
                      (bps_window_size perf) ltac:(lia)) as Hm1.
        pose proof (Z.mod_pos_bound (byte_count_total perf) (bps_window_size perf)
                      ltac:(lia)) as Hm2.
        generalize dependent ((byte_count_total perf + (1 + Z.of_nat j))
                                mod bps_window_size perf).
        generalize dependent (byte_count_total perf mod bps_window_size perf).
        intros. lia.
    + specialize (Hslots k b' Hk ltac:(rewrite Hws; lia)).
      rewrite Hbt, Hws, Hint in Hslots. rewrite Nat2Z.inj_succ.
      replace (byte_count_total perf + Z.succ (Z.of_nat k))
        with (byte_count_total perf + 1 + Z.of_nat k) by lia.
      exact Hslots.
Qed.

(** A window of three slots after five ticks. *)
Lemma window_holds_last_samples_witness :
  exists perf',
    sample_ticks (gst_perf_start (set_bitrate_window_size gst_perf_init 3))
      [125; 250; 375; 500; 625] = Some perf' /\
    bps_window_buffer perf' !! 1%nat = Some (d_of_Z 5000).
Proof.
  destruct (window_holds_last_samples [125; 250; 375; 500; 625]
              (gst_perf_start (set_bitrate_window_size gst_perf_init 3)))
    as (perf' & Hs & _ & Hslots).
  - split; [unfold is_u32; cbn; lia|intros _; reflexivity].
  - cbn. discriminate.
  - cbn. lia.
  - cbn. lia.
  - exists perf'. split; [exact Hs|].
    specialize (Hslots 4%nat 625 eq_refl ltac:(cbn; lia)).
    etransitivity; [exact Hslots|]. vm_compute. reflexivity.
Defined.

(** ** Sessions *)

(** A session started by [gst_perf_start] never indexes the window buffer
    outside its allocation, whatever buffers and ticks follow. *)
Theorem session_stays_in_bounds (perf0 : GstPerf) (evs : list event) :
  is_u32 (bps_window_size perf0) ->
  exists perf rs,
    run (gst_perf_start perf0) evs = Some (perf, rs) /\
    window_ok perf /\
    bps_window_size perf = bps_window_size perf0.
Proof.
  intros Hws.
  destruct (start_window_ok perf0 Hws) as [Hw Hb].
  destruct (run_defined evs (gst_perf_start perf0) Hw Hb) as (perf & rs & Hr).
  exists perf, rs. split; [exact Hr|].
  split; [apply (run_window_ok evs _ _ _ Hr Hw Hb)|].
  assert (Hstart : bps_window_size (gst_perf_start perf0) = bps_window_size perf0).
  { unfold gst_perf_start.
    destruct (bps_window_size (gst_perf_clear perf0) =? 0); reflexivity. }
  rewrite <- Hstart. clear Hw Hb Hws Hstart.
  generalize dependent (gst_perf_start perf0). revert perf rs.
  induction evs as [|e rest IH]; intros perf rs p0 Hr; cbn in Hr.
  - injection Hr as <- _. reflexivity.
  - destruct (step p0 e) as [[p1 r]|] eqn:Hs; [|discriminate].
    destruct (run p1 rest) as [[p2 rs']|] eqn:Hr'; [|discriminate].
    injection Hr as <- _. rewrite (IH _ _ _ Hr').
    destruct e as [time size stat gpu|]; cbn in Hs.
    + apply transform_ip_inv in Hs. cbv zeta in Hs. apply Hs.
    + destruct (gst_perf_update_bps p0) as [q|] eqn:U; [|discriminate].
      injection Hs as <- _. apply update_bps_inv in U. apply U.
Qed.

Lemma session_stays_in_bounds_witness :
  exists perf rs,
    run (gst_perf_start (set_bitrate_window_size gst_perf_init 2))
      [Tick; Buffer 5000 1000 None no_gpu; Tick; Tick] = Some (perf, rs) /\
    length (bps_window_buffer perf) = 2%nat.
Proof.
  destruct (session_stays_in_bounds (set_bitrate_window_size gst_perf_init 2)
              [Tick; Buffer 5000 1000 None no_gpu; Tick; Tick])
    as (perf & rs & Hr & [_ Hw] & Hws).
  - unfold is_u32. cbn. lia.
  - exists perf, rs. split; [exact Hr|].
    rewrite Hw; rewrite Hws; [reflexivity|cbn; discriminate].
Defined.

(** Between two reports every buffer is counted once and a tick is not
    counted. *)
Theorem frames_counted_once (evs : list event) :
  forall (perf perf' : GstPerf),
    is_u32 (frame_count perf) ->
    run perf evs = Some (perf', []) ->
    frame_count perf' = wrap32 (frame_count perf + count_buffers evs) /\
    frame_count_total perf' = frame_count_total perf /\
    prev_timestamp perf' = prev_timestamp perf.
Proof.
  induction evs as [|e rest IH]; intros perf perf' Hfc Hr; cbn in Hr.
  - injection Hr as <-. cbn. rewrite Z.add_0_r, (wrap32_small _ Hfc).
    repeat split.
  - destruct (step perf e) as [[p1 r]|] eqn:Hs; [|discriminate].
    destruct (run p1 rest) as [[p2 rs']|] eqn:Hr'; [|discriminate].
    destruct e as [time size stat gpu|]; cbn in Hs.
    + destruct r as [rep|]; cbn in Hr; [discriminate|]. injection Hr as <- ->.
      apply transform_ip_inv in Hs. cbv zeta in Hs.
      destruct Hs as (Hrep & Hprev & Hf & Hft & _).
      destruct (report_due perf time); [discriminate|].
      destruct (IH p1 p2 ltac:(rewrite Hf; apply wrap32_range) Hr')
        as (IH1 & IH2 & IH3).
      rewrite IH1, IH2, IH3, Hf, Hft, Hprev. cbn [count_buffers].
      split; [|split; reflexivity].
      unfold wrap32. rewrite Zplus_mod_idemp_l. f_equal. lia.
    + assert (Hp : p2 = perf' /\ rs' = [])
        by (destruct r; cbn in Hr; injection Hr as <- <-; split; reflexivity).
      destruct Hp as [-> ->].
      destruct (gst_perf_update_bps perf) as [q|] eqn:U; [|discriminate].
      injection Hs as <- _. apply update_bps_inv in U.
      destruct U as (_ & _ & _ & _ & Hprev & Hf & Hft & _).
      destruct (IH q perf' ltac:(rewrite Hf; exact Hfc) Hr') as (IH1 & IH2 & IH3).
      rewrite IH1, IH2, IH3, Hf, Hft, Hprev. cbn [count_buffers]. repeat split.
Qed.

(** Three buffers and two ticks within the second that follows a report
    at 5000. *)
Lemma frames_counted_once_witness :
  match run (set_prev_timestamp (set_frame_count (gst_perf_start gst_perf_init) 1) 5000)
          [Buffer 6000 10 None no_gpu; Tick; Buffer 7000 10 None no_gpu; Tick;
           Buffer 8000 10 None no_gpu] with
  | Some (perf', []) => frame_count perf' = 4
  | _ => False
  end.
Proof.
  destruct (run (set_prev_timestamp (set_frame_count (gst_perf_start gst_perf_init) 1)
                   5000)
              [Buffer 6000 10 None no_gpu; Tick; Buffer 7000 10 None no_gpu; Tick;
               Buffer 8000 10 None no_gpu]) as [[perf' rs]|] eqn:Hr;
    [|vm_compute in Hr; discriminate].
  assert (rs = []) as ->.
  { pose proof Hr as Hr2. vm_compute in Hr2. injection Hr2 as _ <-. reflexivity. }
  assert (Hfc : is_u32 (frame_count (set_prev_timestamp
            (set_frame_count (gst_perf_start gst_perf_init) 1) 5000)))
    by (unfold is_u32; cbn; lia).
  destruct (frames_counted_once _ _ _ Hfc Hr) as (H & _ & _).
  rewrite H. vm_compute. reflexivity.
Defined.

(** ** When and what a buffer reports *)

(** With a valid baseline and a clock that has not gone back, a buffer
    reports exactly when a second or more has passed since the baseline,
    and only a report moves the baseline. *)
Theorem buffer_reports_iff_second_elapsed (perf : GstPerf) (time size : Z)
    (stat : option ProcStat) (gpu : SpawnResult) :
  window_ok perf -> is_u64 (byte_count_total perf) ->
  0 <= prev_timestamp perf <= time -> time < GST_CLOCK_TIME_NONE ->
  exists perf' r,
    gst_perf_transform_ip perf time size stat gpu = Some (perf', r) /\
    (is_Some r <-> GST_SECOND <= time - prev_timestamp perf) /\
    prev_timestamp perf' =
      match r with Some _ => time | None => prev_timestamp perf end.
Proof.
  intros Hw Hb Hp Ht.
  destruct (transform_ip_defined perf time size stat gpu Hw Hb) as (perf' & r & H).
  exists perf', r. split; [exact H|].
  apply transform_ip_inv in H. cbv zeta in H. destruct H as (Hr & Hprev & _).
  rewrite report_due_valid in Hr, Hprev by assumption.
  destruct (GST_SECOND <=? time - prev_timestamp perf) eqn:E; subst r.
  - apply Z.leb_le in E. split; [|exact Hprev]. split; [intros _; exact E|eauto].
  - apply Z.leb_gt in E. split; [|exact Hprev].
    split; [intros [x Hx]; discriminate|lia].
Qed.

Lemma buffer_reports_iff_second_elapsed_witness :
  exists perf' r,
    gst_perf_transform_ip
      (set_prev_timestamp (gst_perf_start gst_perf_init) 5000)
      1000004999 10 None no_gpu = Some (perf', r) /\
    r = None /\ prev_timestamp perf' = 5000.
Proof.
  destruct (buffer_reports_iff_second_elapsed
              (set_prev_timestamp (gst_perf_start gst_perf_init) 5000)
              1000004999 10 None no_gpu) as (perf' & r & H & Hiff & Hprev).
  - split; [closed_range|intros _; reflexivity].
  - closed_range.
  - change (prev_timestamp (set_prev_timestamp (gst_perf_start gst_perf_init) 5000))
      with 5000. lia.
  - unfold GST_CLOCK_TIME_NONE. lia.
  - exists perf', r. split; [exact H|].
    assert (r = None) as ->.
    { destruct r as [rep|]; [|reflexivity].
      destruct Hiff as [Hiff _]. specialize (Hiff ltac:(eauto)).
      change (prev_timestamp (set_prev_timestamp (gst_perf_start gst_perf_init) 5000))
        with 5000 in Hiff. unfold GST_SECOND in Hiff. lia. }
    split; [reflexivity|exact Hprev].
Defined.

(** The elapsed time is kept unsigned. A clock reading earlier than the
    baseline is therefore a huge difference and reports at once; and once
    the baseline is valid, a buffer whose own reading is the invalid
    timestamp never reports. *)
Theorem report_due_off_the_timeline (perf : GstPerf) (time : Z) :
  prev_timestamp perf < GST_CLOCK_TIME_NONE ->
  (0 <= time < prev_timestamp perf ->
   GST_SECOND <= 2 ^ 64 - (prev_timestamp perf - time) ->
   report_due perf time = true) /\
  (0 <= prev_timestamp perf -> report_due perf GST_CLOCK_TIME_NONE = false).
Proof.
  intros Hp. unfold report_due, GST_CLOCK_TIME_IS_VALID, GST_CLOCK_DIFF.
  assert (Ev : (prev_timestamp perf =? GST_CLOCK_TIME_NONE) = false)
    by (apply Z.eqb_neq; lia).
  rewrite Ev. cbn [negb orb]. split.
  - intros Ht Hfar.
    assert (Et : (time =? GST_CLOCK_TIME_NONE) = false) by (apply Z.eqb_neq; lia).
    rewrite Et. cbn [negb andb]. apply Z.leb_le.
    unfold wrap64.
    replace (time - prev_timestamp perf)
      with (2 ^ 64 - (prev_timestamp perf - time) + (-1) * 2 ^ 64) by lia.
    rewrite Z.mod_add by lia.
    rewrite Z.mod_small by (unfold GST_CLOCK_TIME_NONE in *; lia). exact Hfar.
  - intros _. rewrite Z.eqb_refl. reflexivity.
Qed.

Lemma report_due_off_the_timeline_witness :
  report_due (set_prev_timestamp gst_perf_init 5000) 4000 = true /\
  report_due (set_prev_timestamp gst_perf_init 5000) GST_CLOCK_TIME_NONE = false.
Proof.
  destruct (report_due_off_the_timeline (set_prev_timestamp gst_perf_init 5000) 4000)
    as [H1 H2].
  - change (prev_timestamp (set_prev_timestamp gst_perf_init 5000)) with 5000.
    unfold GST_CLOCK_TIME_NONE. lia.
  - change (prev_timestamp (set_prev_timestamp gst_perf_init 5000)) with 5000 in *.
    split; [apply H1|apply H2]; unfold GST_SECOND; lia.
Defined.

Lemma transform_ip_report_rates (perf perf' : GstPerf) (time size : Z)
    (stat : option ProcStat) (gpu : SpawnResult) (rep : Report) :
  gst_perf_transform_ip perf time size stat gpu = Some (perf', Some rep) ->
  r_bps rep = bps perf /\ r_mean_bps rep = mean_bps perf /\
  bps perf' =
    bits_per_second (wrap32 (wrap64 (byte_count perf + size)))
      (bps_running_interval perf).
Proof.
  intros H. apply transform_ip_inv in H. cbv zeta in H.
  destruct H as (Hr & _ & _ & _ & _ & _ & Hbps & _).
  split; [|split; [|exact Hbps]];
    destruct (report_due perf time); try discriminate; injection Hr as ->;
    unfold report_block, gst_perf_cpu_get_load, gst_perf_compute_cpu,
      gst_perf_get_gpu_stats;
    destruct stat as [st|]; cbn; split_ifs; reflexivity.
Qed.

(** The bitrate figures of a report are the ones published before the
    reporting buffer arrived: the buffer's own bytes are sampled after the
    report has gone out. *)
Theorem report_predates_own_sample (perf perf' : GstPerf) (time size : Z)
    (stat : option ProcStat) (gpu : SpawnResult) (rep : Report) :
  gst_perf_transform_ip perf time size stat gpu = Some (perf', Some rep) ->
  r_bps rep = bps perf /\ r_mean_bps rep = mean_bps perf /\
  bps perf' =
    bits_per_second (wrap32 (wrap64 (byte_count perf + size)))
      (bps_running_interval perf).
Proof. apply transform_ip_report_rates. Qed.

Lemma report_predates_own_sample_witness :
  exists perf' rep,
    gst_perf_transform_ip (set_bps (gst_perf_start gst_perf_init) (d_of_Z 64))
      5000 1000 None no_gpu = Some (perf', Some rep) /\
    r_bps rep = d_of_Z 64 /\ bps perf' = d_of_Z 8000.
Proof.
  destruct (gst_perf_transform_ip (set_bps (gst_perf_start gst_perf_init) (d_of_Z 64))
              5000 1000 None no_gpu) as [[perf' [rep|]]|] eqn:E;
    [|vm_compute in E; discriminate|vm_compute in E; discriminate].
  exists perf', rep. split; [reflexivity|].
  destruct (report_predates_own_sample _ _ _ _ _ _ _ E) as (H1 & _ & H3).
  split; [rewrite H1; reflexivity|rewrite H3; vm_compute; reflexivity].
Defined.

(** The first buffer of a session, no tick having come before, reports
    means of zero, and an instantaneous bitrate that is whatever [bps] held
    before [gst_perf_start]: clearing resets [mean_bps] and not [bps], and
    stopping does not reset it either. *)
Theorem first_report_of_session (perf0 : GstPerf) (time size : Z)
    (stat : option ProcStat) (gpu : SpawnResult) :
  is_u32 (bps_window_size perf0) ->
  exists perf' rep,
    gst_perf_transform_ip (gst_perf_start perf0) time size stat gpu =
      Some (perf', Some rep) /\
    r_mean_fps rep = d_zero /\ r_mean_bps rep = d_zero /\
    r_bps rep = bps perf0 /\
    bps (gst_perf_stop perf0) = bps perf0.
Proof.
  intros Hws.
  destruct (start_window_ok perf0 Hws) as [Hw Hb].
  destruct (transform_ip_defined (gst_perf_start perf0) time size stat gpu Hw Hb)
    as (perf' & r & H).
  pose proof H as H'. apply transform_ip_inv in H'. cbv zeta in H'.
  destruct H' as (Hr & _).
  assert (Hstart : prev_timestamp (gst_perf_start perf0) = GST_CLOCK_TIME_NONE).
  { unfold gst_perf_start.
    destruct (bps_window_size (gst_perf_clear perf0) =? 0); reflexivity. }
  rewrite (report_due_first _ _ Hstart) in Hr. subst r.
  eexists. eexists. split; [exact H|].
  destruct (transform_ip_report_rates _ _ _ _ _ _ _ H) as (H1 & H2 & _).
  rewrite H1, H2.
  split; [|unfold gst_perf_start;
           destruct (bps_window_size (gst_perf_clear perf0) =? 0); repeat split].
  unfold report_block, gst_perf_cpu_get_load, gst_perf_compute_cpu,
    gst_perf_get_gpu_stats, gst_perf_start.
  destruct (bps_window_size (gst_perf_clear perf0) =? 0);
    destruct stat as [st|]; cbn; split_ifs; reflexivity.
Qed.

Lemma first_report_of_session_witness :
  exists perf' rep,
    gst_perf_transform_ip
      (gst_perf_start (gst_perf_stop (set_bps gst_perf_init (d_of_Z 64))))
      5000 1000 None no_gpu = Some (perf', Some rep) /\
    r_bps rep = d_of_Z 64 /\ r_mean_bps rep = d_zero.
Proof.
  destruct (first_report_of_session (gst_perf_stop (set_bps gst_perf_init (d_of_Z 64)))
              5000 1000 None no_gpu) as (perf' & rep & H & _ & H2 & H3 & _).
  - closed_range.
  - exists perf', rep. split; [exact H|]. split; [rewrite H3; reflexivity|exact H2].
Defined.

(** The cumulative mean leaves the first sample of a session out: the
    sample counter is handed to the average before it is incremented, so
    after the first event of a session without window [mean_bps] is 0
    whatever was received. *)
Theorem first_sample_left_out_of_mean (perf0 : GstPerf) (e : event) :
  bps_window_size perf0 = 0 ->
  exists perf' r,
    step (gst_perf_start perf0) e = Some (perf', r) /\
    mean_bps perf' = d_zero /\ byte_count_total perf' = 1.
Proof.
  intros Hws.
  assert (Hs : gst_perf_start perf0 =
               set_bps_running_interval (gst_perf_clear perf0) (bps_interval perf0)).
  { unfold gst_perf_start. cbn. rewrite Hws. reflexivity. }
  assert (T : forall p, bps_window_size p = 0 -> byte_count_total p = 0 ->
              exists p', gst_perf_update_bps p = Some p' /\
                         mean_bps p' = d_zero /\ byte_count_total p' = 1).
  { intros p Hw Hc. unfold gst_perf_update_bps. cbn. rewrite Hw, Hc. cbn.
    eexists. split; [reflexivity|]. cbn. rewrite Hc. split; reflexivity. }
  assert (Hw0 : bps_window_size (gst_perf_start perf0) = 0)
    by (rewrite Hs; exact Hws).
  assert (Hc0 : byte_count_total (gst_perf_start perf0) = 0)
    by (rewrite Hs; reflexivity).
  destruct e as [time size stat gpu|]; cbn [step].
  - assert (Hq : forall q (r : option Report),
              bps_window_size q = 0 -> byte_count_total q = 0 ->
              exists perf' r',
                match gst_perf_update_bps q with
                | Some q' => Some (q', r)
                | None => None
                end = Some (perf', r') /\
                mean_bps perf' = d_zero /\ byte_count_total perf' = 1).
    { intros q r Hw Hc. destruct (T q Hw Hc) as (p' & Hp' & Hm & Hc').
      rewrite Hp'. eauto. }
    unfold gst_perf_transform_ip.
    pose proof (report_block_frame (gst_perf_start perf0) time stat gpu) as F.
    cbv zeta in F. destruct F as (_ & _ & _ & _ & F5 & _ & _ & _ & F9 & _).
    destruct (report_due (gst_perf_start perf0) time).
    + destruct (report_block (gst_perf_start perf0) time stat gpu) as [p rep].
      cbn [fst] in F5, F9. cbv beta iota zeta.
      apply Hq; [exact (eq_trans F9 Hw0)|exact (eq_trans F5 Hc0)].
    + clear Hs F5 F9. revert Hw0 Hc0. generalize (gst_perf_start perf0).
      intros p Hw0 Hc0. cbv beta iota zeta.
      apply Hq; [exact Hw0|exact Hc0].
  - destruct (T (gst_perf_start perf0) Hw0 Hc0) as (p' & Hp' & Hm & Hc).
    rewrite Hp'. eauto.
Qed.

Lemma first_sample_left_out_of_mean_witness :
  exists perf' r,
    step (gst_perf_start gst_perf_init) (Buffer 5000 1000000 None no_gpu) =
      Some (perf', r) /\
    mean_bps perf' = d_zero /\ bps perf' = d_of_Z 8000000.
Proof.
  destruct (first_sample_left_out_of_mean gst_perf_init
              (Buffer 5000 1000000 None no_gpu)) as (perf' & r & H & Hm & _).
  - reflexivity.
  - exists perf', r. split; [exact H|]. split; [exact Hm|].
    vm_compute in H. injection H as <- _. reflexivity.
Defined.

(** ** Stopping and changing properties *)

(** [gst_perf_stop] frees the window buffer before it removes the timeout
    source: a sampler run that still comes after the free, on an element
    with a window, reads the freed buffer. Without a window nothing is
    read. *)
Theorem sampler_after_stop (perf : GstPerf) :
  (bps_window_size perf <> 0 -> gst_perf_update_bps (gst_perf_stop perf) = None) /\
  (bps_window_size perf = 0 -> exists perf', gst_perf_update_bps (gst_perf_stop perf) = Some perf').
Proof.
  unfold gst_perf_update_bps, gst_perf_stop.
  cbn -[bits_per_second gst_perf_update_average gst_perf_update_moving_average].
  split; intros H.
  - apply Z.eqb_neq in H. rewrite H. reflexivity.
  - rewrite H. eauto.
Qed.

Lemma sampler_after_stop_witness :
  gst_perf_update_bps
    (gst_perf_stop (gst_perf_start (set_bitrate_window_size gst_perf_init 4))) = None.
Proof.
  apply (sampler_after_stop (gst_perf_start (set_bitrate_window_size gst_perf_init 4))).
  vm_compute. discriminate.
Defined.

Lemma property_holds_cases (property_id : Z) (value : GValue) :
  property_holds property_id value ->
  ((property_id = 1 \/ property_id = 2 \/ property_id = 3) /\
   exists b, value = G_BOOLEAN b) \/
  ((property_id = 4 \/ property_id = 5) /\ exists u, value = G_UINT u).
Proof.
  unfold property_holds. intros H.
  destruct property_id as [|p|p]; try contradiction.
  destruct p as [[[p|p|]|[p|p|]|]|[[p|p|]|[p|p|]|]|]; try contradiction;
    destruct value as [b|u]; try contradiction;
    solve [left; split; [tauto|eauto] | right; split; [tauto|eauto]].
Qed.

(** A property reads back as it was written, [print-arm-load] being
    another name of [print-cpu-load]; writing one property leaves every
    other one as it reads, and an unknown id changes nothing. *)
Theorem property_set_then_get (perf : GstPerf) (property_id : Z) (value slot : GValue) :
  property_holds property_id value -> property_holds property_id slot ->
  gst_perf_get_property (gst_perf_set_property perf property_id value) property_id slot
    = value /\
  gst_perf_set_property perf PROP_PRINT_ARM_LOAD value =
    gst_perf_set_property perf PROP_PRINT_CPU_LOAD value /\
  (forall other other_slot,
     1 <= other <= 5 -> other <> property_id ->
     ~ (other <= 2 /\ property_id <= 2) ->
     gst_perf_get_property (gst_perf_set_property perf property_id value) other other_slot
       = gst_perf_get_property perf other other_slot) /\
  (forall unknown, ~ 1 <= unknown <= 5 ->
     gst_perf_set_property perf unknown value = perf).
Proof.
  intros Hv Hs.
  apply property_holds_cases in Hv. apply property_holds_cases in Hs.
  split; [|split; [reflexivity|split]].
  - destruct Hv as [[Hid [b ->]]|[Hid [u ->]]];
      destruct Hs as [[Hid' [b' ->]]|[Hid' [u' ->]]]; try lia; clear Hid';
      repeat match goal with H : _ \/ _ |- _ => destruct H end; subst; reflexivity.
  - intros other other_slot Ho Hne Halias.
    assert (Eo : other = 1 \/ other = 2 \/ other = 3 \/ other = 4 \/ other = 5) by lia.
    clear Hs.
    destruct Hv as [[Hid [b ->]]|[Hid [u ->]]];
      repeat match goal with H : _ \/ _ |- _ => destruct H end; subst;
      try lia; reflexivity.
  - intros unknown Hu. unfold gst_perf_set_property.
    destruct unknown as [|p|p]; try reflexivity.
    destruct p as [[[p|p|]|[p|p|]|]|[[p|p|]|[p|p|]|]|]; try reflexivity; lia.
Qed.

Lemma property_set_then_get_witness :
  gst_perf_get_property
    (gst_perf_set_property gst_perf_init PROP_BITRATE_WINDOW_SIZE (G_UINT 16))
    PROP_BITRATE_WINDOW_SIZE (G_UINT 0) = G_UINT 16.
Proof.
  destruct (property_set_then_get gst_perf_init PROP_BITRATE_WINDOW_SIZE (G_UINT 16)
              (G_UINT 0)) as (H & _); [exact I|exact I|exact H].
Defined.

(** Writing a property touches no counter, average, snapshot or buffer of
    the session. *)
Theorem set_property_keeps_session (perf : GstPerf) (property_id : Z) (value : GValue) :
  let perf' := gst_perf_set_property perf property_id value in
  (byte_count perf', byte_count_total perf', frame_count perf', frame_count_total perf') =
    (byte_count perf, byte_count_total perf, frame_count perf, frame_count_total perf) /\
  (fps perf', bps perf', mean_bps perf', bps_window_buffer perf') =
    (fps perf, bps perf, mean_bps perf, bps_window_buffer perf) /\
  (prev_timestamp perf', prev_cpu_total perf', prev_cpu_idle perf', gpu_stats perf') =
    (prev_timestamp perf, prev_cpu_total perf, prev_cpu_idle perf, gpu_stats perf) /\
  bps_running_interval perf' = bps_running_interval perf.
Proof.
  unfold gst_perf_set_property.
  destruct property_id as [|p|p]; try (repeat split; fail).
  destruct p as [[[p|p|]|[p|p|]|]|[[p|p|]|[p|p|]|]|]; repeat split.
Qed.

(** The sampler divides by the interval that [gst_perf_start] recorded:
    writing [bitrate-interval] during a session changes no published
    figure, and takes effect at the next start. *)
Theorem interval_change_waits_for_start (perf : GstPerf) (interval : Z) :
  let perf_w := gst_perf_set_property perf PROP_BITRATE_INTERVAL (G_UINT interval) in
  gst_perf_update_bps perf_w =
    option_map (fun p => gst_perf_set_property p PROP_BITRATE_INTERVAL (G_UINT interval))
      (gst_perf_update_bps perf) /\
  bps_running_interval (gst_perf_start perf_w) = interval.
Proof.
  cbv zeta. split.
  - unfold gst_perf_update_bps. cbn.
    destruct (bps_window_size perf =? 0); [reflexivity|].
    change (buffer_current_idx (set_byte_count
              (set_bitrate_interval perf interval) 0))
      with (buffer_current_idx (set_byte_count perf 0)).
    destruct (bps_window_buffer perf !! Z.to_nat (buffer_current_idx
                (set_byte_count perf 0))); reflexivity.
  - unfold gst_perf_start. cbn. destruct (bps_window_size perf =? 0); reflexivity.
Qed.

(** Writing [bitrate-window-size] during a session does not reallocate the
    buffer: when the slot of the next sample lies beyond what
    [gst_perf_start] allocated, the sampler reads outside the buffer. *)
Theorem window_size_change_outgrows_buffer (perf : GstPerf) (size : Z) :
  0 < size < 2 ^ 32 -> 0 <= byte_count_total perf ->
  (length (bps_window_buffer perf) <= Z.to_nat (byte_count_total perf mod size))%nat ->
  gst_perf_update_bps
    (gst_perf_set_property perf PROP_BITRATE_WINDOW_SIZE (G_UINT size)) = None.
Proof.
  intros Hs Hc Hlen. unfold gst_perf_update_bps. cbn.
  replace (size =? 0) with false by (symmetry; apply Z.eqb_neq; lia).
  pose proof (Z.mod_pos_bound (byte_count_total perf) size ltac:(lia)) as Hm.
  assert (Hidx : buffer_current_idx (set_byte_count
                   (set_bitrate_window_size perf size) 0) =
                 byte_count_total perf mod size).
  { unfold buffer_current_idx. cbn. apply wrap32_small. unfold is_u32. lia. }
  rewrite Hidx.
  rewrite (proj2 (lookup_ge_None (bps_window_buffer perf) _) Hlen). reflexivity.
Qed.

(** A session started without window, then asked for one of four samples. *)
Lemma window_size_change_outgrows_buffer_witness :
  gst_perf_update_bps
    (gst_perf_set_property (gst_perf_start gst_perf_init) PROP_BITRATE_WINDOW_SIZE
       (G_UINT 4)) = None.
Proof.
  apply (window_size_change_outgrows_buffer (gst_perf_start gst_perf_init) 4).
  - lia.
  - vm_compute. discriminate.
  - vm_compute. constructor.
Defined.

(** ** Reading the answer of the GPU query *)

Lemma string_app_assoc (a b c : string) : ((a ++ b) ++ c = a ++ (b ++ c))%string.
Proof. induction a as [|x a IH]; cbn; [reflexivity|]. rewrite IH. reflexivity. Qed.

Lemma string_app_nil_r (a : string) : (a ++ EmptyString = a)%string.
Proof. induction a as [|x a IH]; cbn; [reflexivity|]. rewrite IH. reflexivity. Qed.

Lemma comma_free_app (a b : string) :
  comma_free (a ++ b) = comma_free a && comma_free b.
Proof.
  induction a as [|x a IH]; cbn; [reflexivity|].
  rewrite IH. apply andb_assoc.
Qed.

(** The run being read, once a delimiter-free stretch is appended to it. *)
Lemma strtok_from_stretch (s : string) :
  forall tok rest,
    comma_free s = true ->
    strtok_from (s ++ String "," rest) tok =
      match (tok ++ s)%string with
      | EmptyString => strtok_from rest EmptyString
      | t => t :: strtok_from rest EmptyString
      end /\
    strtok_from s tok =
      match (tok ++ s)%string with
      | EmptyString => []
      | t => [t]
      end.
Proof.
  induction s as [|c s IH]; intros tok rest Hs; cbn in Hs |- *.
  - rewrite string_app_nil_r. destruct tok; split; reflexivity.
  - apply andb_true_iff in Hs as [Hc Hs].
    apply negb_true_iff in Hc. rewrite Hc.
    destruct (IH (tok ++ String c EmptyString)%string rest Hs) as [IH1 IH2].
    rewrite IH1, IH2, string_app_assoc. cbn. split; reflexivity.
Qed.

Lemma strtok_from_tokens (s : string) :
  forall tok, comma_free tok = true -> Forall is_token (strtok_from s tok).
Proof.
  induction s as [|c s IH]; intros tok Ht; cbn.
  - destruct tok as [|x tok]; constructor; [|constructor].
    split; [discriminate|exact Ht].
  - destruct (is_comma c) eqn:Hc.
    + destruct tok as [|x tok]; [apply IH; reflexivity|].
      constructor; [split; [discriminate|exact Ht]|apply IH; reflexivity].
    + apply IH. rewrite comma_free_app, Ht. cbn. rewrite Hc. reflexivity.
Qed.

(** What [strtok] returns are tokens, never empty and never holding a
    comma, so that doubled, leading and trailing commas produce nothing; and
    tokens joined by commas are returned as they were, in order. *)
Theorem strtok_splits_at_commas (tokens : list string) (s : string) :
  Forall is_token (strtok_all s) /\
  strtok_all (String "," s) = strtok_all s /\
  (Forall is_token tokens -> strtok_all (join_commas tokens) = tokens).
Proof.
  split; [apply strtok_from_tokens; reflexivity|].
  split; [reflexivity|].
  unfold strtok_all. induction tokens as [|t rest IH]; intros Hall; [reflexivity|].
  apply Forall_cons in Hall as [[Hne Hcf] Hrest].
  destruct rest as [|t' rest'].
  - cbn [join_commas].
    rewrite (proj2 (strtok_from_stretch t EmptyString EmptyString Hcf)).
    cbn. destruct t; [contradiction|reflexivity].
  - change (join_commas (t :: t' :: rest'))
      with (t ++ String "," (join_commas (t' :: rest')))%string.
    rewrite (proj1 (strtok_from_stretch t EmptyString _ Hcf)).
    cbn [append]. rewrite (IH Hrest). destruct t; [contradiction|reflexivity].
Qed.

Lemma strtok_splits_at_commas_witness :
  strtok_all (join_commas ["12 %"; " 3"; " 7982 MiB"]%string) =
    ["12 %"; " 3"; " 7982 MiB"]%string.
Proof.
  apply (strtok_splits_at_commas ["12 %"; " 3"; " 7982 MiB"]%string EmptyString).
  repeat constructor; discriminate.
Defined.

Lemma digits_value_end (rest : string) (acc : Z) :
  ends_number rest -> digits_value rest acc = acc.
Proof. destruct rest as [|c rest]; cbn; [reflexivity|]. intros ->. reflexivity. Qed.

(** The digits of a decimal numeral, read from an accumulator on. *)
Lemma digits_value_numeral (d : Decimal.uint) :
  forall (acc : nat) (rest : string),
    ends_number rest ->
    digits_value (DecimalString.NilEmpty.string_of_uint d ++ rest) (Z.of_nat acc) =
      Z.of_nat (Nat.of_uint_acc d acc).
Proof.
  induction d as [|d IH|d IH|d IH|d IH|d IH|d IH|d IH|d IH|d IH|d IH];
    intros acc rest Hrest;
    [apply digits_value_end; exact Hrest|..];
    cbn [DecimalString.NilEmpty.string_of_uint append digits_value Nat.of_uint_acc];
    match goal with
    | |- context [isdigit ?c] => change (isdigit c) with true
    end; cbv iota; rewrite Nat.tail_mul_spec; rewrite <- (IH _ rest Hrest);
    f_equal;
    match goal with
    | |- context [Z.of_nat (nat_of_ascii ?c)] =>
        let v := eval vm_compute in (Z.of_nat (nat_of_ascii c)) in
        change (Z.of_nat (nat_of_ascii c)) with v
    end; lia.
Qed.

Lemma to_uint_nonnil (n : nat) : Nat.to_uint n <> Decimal.Nil.
Proof.
  rewrite <- (DecimalNat.Unsigned.of_to n) at 1.
  rewrite DecimalNat.Unsigned.to_of. apply DecimalFacts.unorm_nonnil.
Qed.

Lemma skip_spaces_blanks (k : nat) (s : string) :
  skip_spaces (blanks k ++ s) = skip_spaces s.
Proof. induction k as [|k IH]; cbn; [reflexivity|exact IH]. Qed.

Lemma atol_decimal (n k : nat) (rest : string) :
  ends_number rest -> Z.of_nat n <= LONG_MAX ->
  atol (blanks k ++ decimal n ++ rest) = Z.of_nat n.
Proof.
  intros Hrest Hmax. unfold atol. rewrite skip_spaces_blanks. unfold decimal.
  pose proof (to_uint_nonnil n) as Hnil.
  pose proof (digits_value_numeral (Nat.to_uint n) 0 rest Hrest) as Hd.
  change (Nat.of_uint_acc (Nat.to_uint n) 0) with (Nat.of_uint (Nat.to_uint n)) in Hd.
  rewrite DecimalNat.Unsigned.of_to in Hd. change (Z.of_nat 0) with 0 in Hd.
  destruct (Nat.to_uint n) as [|d|d|d|d|d|d|d|d|d|d]; [contradiction|..];
    cbn [DecimalString.NilEmpty.string_of_uint append skip_spaces] in Hd |- *;
    match goal with
    | |- context [isspace ?c] => change (isspace c) with false
    end; cbv iota; rewrite Hd; lia.
Qed.

(** [atol] reads a decimal number through leading blanks and stops at
    whatever follows it, a unit for instance. *)
Theorem atol_reads_decimal (n k : nat) (rest : string) :
  ends_number rest -> Z.of_nat n <= LONG_MAX ->
  atol (blanks k ++ decimal n ++ rest) = Z.of_nat n.
Proof. apply atol_decimal. Qed.

Lemma atol_reads_decimal_witness :
  atol (blanks 1 ++ decimal 42 ++ " MiB") = 42.
Proof.
  apply (atol_reads_decimal 42 1 " MiB"); [reflexivity|].
  unfold LONG_MAX. lia.
Defined.






(** Seven tokens or more: each of the first seven goes to its field,
    whatever the snapshot held, and the tokens after them go nowhere. *)
Lemma gpu_stats_loop_seven (g : GpuStats) (t0 t1 t2 t3 t4 t5 t6 : string)
    (others : list string) :
  gpu_stats_loop g 0 (t0 :: t1 :: t2 :: t3 :: t4 :: t5 :: t6 :: others) =
  mkGpuStats (wrap32 (wrap64 (atol t0))) (wrap32 (wrap64 (atol t1)))
    (wrap32 (wrap64 (atol t2))) (wrap64 (atol t3)) (wrap32 (wrap64 (atol t4)))
    (wrap32 (wrap64 (atol t5))) (wrap32 (wrap64 (atol t6))).
Proof.
  cbn [gpu_stats_loop]. rewrite gpu_stats_loop_ge7 by lia.
  destruct g as [a b c d e f h].
  change (0 + 1 + 1 + 1 + 1 + 1 + 1) with 6. change (0 + 1 + 1 + 1 + 1 + 1) with 5.
  change (0 + 1 + 1 + 1 + 1) with 4. change (0 + 1 + 1 + 1) with 3.
  change (0 + 1 + 1) with 2. change (0 + 1) with 1.
  change (gpu_stats_store (mkGpuStats a b c d e f h) 0 t0)
    with (mkGpuStats (wrap32 (wrap64 (atol t0))) b c d e f h).
  match goal with
  | |- context [gpu_stats_store (mkGpuStats ?a ?b ?c ?d ?e ?f ?h) 1 ?t] =>
      change (gpu_stats_store (mkGpuStats a b c d e f h) 1 t)
        with (mkGpuStats a (wrap32 (wrap64 (atol t))) c d e f h)
  end.
  match goal with
  | |- context [gpu_stats_store (mkGpuStats ?a ?b ?c ?d ?e ?f ?h) 2 ?t] =>
      change (gpu_stats_store (mkGpuStats a b c d e f h) 2 t)
        with (mkGpuStats a b (wrap32 (wrap64 (atol t))) d e f h)
  end.
  match goal with
  | |- context [gpu_stats_store (mkGpuStats ?a ?b ?c ?d ?e ?f ?h) 3 ?t] =>
      change (gpu_stats_store (mkGpuStats a b c d e f h) 3 t)
        with (mkGpuStats a b c (wrap64 (atol t)) e f h)
  end.
  match goal with
  | |- context [gpu_stats_store (mkGpuStats ?a ?b ?c ?d ?e ?f ?h) 4 ?t] =>
      change (gpu_stats_store (mkGpuStats a b c d e f h) 4 t)
        with (mkGpuStats a b c d (wrap32 (wrap64 (atol t))) f h)
  end.
  match goal with
  | |- context [gpu_stats_store (mkGpuStats ?a ?b ?c ?d ?e ?f ?h) 5 ?t] =>
      change (gpu_stats_store (mkGpuStats a b c d e f h) 5 t)
        with (mkGpuStats a b c d e (wrap32 (wrap64 (atol t))) h)
  end.
  reflexivity.
Qed.



Lemma wrap32_wrap64 (z : Z) : wrap32 (wrap64 z) = z mod 2 ^ 32.
Proof.
  unfold wrap32, wrap64. apply Z.mod_mod_divide.
  exists (2 ^ 32). reflexivity.
Qed.

(** A successful query with seven tokens or more stores in each field the
    number [atol] reads from its token, reduced modulo the width of the
    field: modulo 2^32 for the six [guint] fields, modulo 2^64 for the
    latency. A negative number, or one too large for its field, is not
    rejected but wraps; the fields end up within their types whatever the
    snapshot was. *)
Theorem gpu_stats_stored_modulo_width (perf : GstPerf) (q : SpawnResult)
    (t0 t1 t2 t3 t4 t5 t6 : string) (others : list string) :
  gpu_query_failed q = false ->
  strtok_all (spawn_output q) = t0 :: t1 :: t2 :: t3 :: t4 :: t5 :: t6 :: others ->
  gpu_stats (fst (gst_perf_get_gpu_stats perf q)) =
    mkGpuStats (atol t0 mod 2 ^ 32) (atol t1 mod 2 ^ 32) (atol t2 mod 2 ^ 32)
      (atol t3 mod 2 ^ 64) (atol t4 mod 2 ^ 32) (atol t5 mod 2 ^ 32)
      (atol t6 mod 2 ^ 32) /\
  gpu_stats_ok (gpu_stats (fst (gst_perf_get_gpu_stats perf q))).
Proof.
  intros Hok Htok.
  assert (E : gpu_stats (fst (gst_perf_get_gpu_stats perf q)) =
              mkGpuStats (atol t0 mod 2 ^ 32) (atol t1 mod 2 ^ 32) (atol t2 mod 2 ^ 32)
                (atol t3 mod 2 ^ 64) (atol t4 mod 2 ^ 32) (atol t5 mod 2 ^ 32)
                (atol t6 mod 2 ^ 32)).
  { rewrite get_gpu_stats_snapshot, Hok, Htok, gpu_stats_loop_seven.
    rewrite !wrap32_wrap64. reflexivity. }
  split; [exact E|]. rewrite E. unfold gpu_stats_ok, is_u32, is_u64.
  cbn [encoder_utilization session_count average_fps average_latency
       gpu_utilization memory_used memory_free].
  repeat match goal with |- _ /\ _ => split end; apply Z.mod_pos_bound; lia.
Qed.

(** An answer with a negative number and one beyond 32 bits. *)
Lemma gpu_stats_stored_modulo_width_witness :
  gpu_stats
    (fst (gst_perf_get_gpu_stats gst_perf_init
            (mkSpawnResult true 0 "-1, 4294967301, 3, -2, 5, 6, 7, 8"))) =
  mkGpuStats 4294967295 5 3 18446744073709551614 5 6 7.
Proof.
  destruct (gpu_stats_stored_modulo_width gst_perf_init
              (mkSpawnResult true 0 "-1, 4294967301, 3, -2, 5, 6, 7, 8")
              "-1" " 4294967301" " 3" " -2" " 5" " 6" " 7" [" 8"%string])
    as [H _].
  - reflexivity.
  - vm_compute. reflexivity.
  - rewrite H. vm_compute. reflexivity.
Defined.

(** ** The CPU figure of a report *)

Lemma update_bps_cpu (perf perf' : GstPerf) :
  gst_perf_update_bps perf = Some perf' ->
  prev_cpu_total perf' = prev_cpu_total perf /\
  prev_cpu_idle perf' = prev_cpu_idle perf /\
  bps_interval perf' = bps_interval perf /\
  print_cpu_load perf' = print_cpu_load perf /\
  bps_window_buffer_current perf' = bps_window_buffer_current perf.
Proof.
  unfold gst_perf_update_bps.
  cbn -[bits_per_second gst_perf_update_average gst_perf_update_moving_average].
  destruct (bps_window_size perf =? 0).
  - intros [= <-]. repeat split.
  - destruct (bps_window_buffer perf !! Z.to_nat _) as [old|]; [|discriminate].
    intros [= <-]. repeat split.
Qed.

(** The CPU figure of the report block and the snapshot it leaves are
    those of [gst_perf_cpu_get_load] on the element it was given. *)
Lemma report_block_cpu (perf : GstPerf) (time : Z)
    (stat : option ProcStat) (gpu : SpawnResult) :
  let got := gst_perf_cpu_get_load perf stat in
  r_cpu_load (snd (report_block perf time stat gpu)) = snd (fst got) /\
  prev_cpu_total (fst (report_block perf time stat gpu)) =
    prev_cpu_total (fst (fst got)) /\
  prev_cpu_idle (fst (report_block perf time stat gpu)) = prev_cpu_idle (fst (fst got)).
Proof.
  cbv zeta. unfold report_block.
  match goal with
  | |- context [gst_perf_cpu_get_load ?x stat] =>
      assert (Hsame : snd (fst (gst_perf_cpu_get_load x stat)) =
                        snd (fst (gst_perf_cpu_get_load perf stat)) /\
                      prev_cpu_total (fst (fst (gst_perf_cpu_get_load x stat))) =
                        prev_cpu_total (fst (fst (gst_perf_cpu_get_load perf stat))) /\
                      prev_cpu_idle (fst (fst (gst_perf_cpu_get_load x stat))) =
                        prev_cpu_idle (fst (fst (gst_perf_cpu_get_load perf stat))));
      [|destruct (gst_perf_cpu_get_load x stat) as [[p load] ok]]
  end.
  - unfold gst_perf_cpu_get_load. destruct stat as [st|]; [|repeat split].
    match goal with
    | |- context [gst_perf_compute_cpu ?x ?i ?t] =>
        pose proof (compute_cpu_load x i t) as L1;
        pose proof (compute_cpu_snapshot x i t) as S1;
        pose proof (compute_cpu_load perf i t) as L2;
        pose proof (compute_cpu_snapshot perf i t) as S2;
        destruct (gst_perf_compute_cpu x i t) as [x' l1];
        destruct (gst_perf_compute_cpu perf i t) as [p' l2]
    end.
    cbv zeta in L1, L2, S1, S2. cbn [fst snd] in *.
    destruct S1 as [S1i S1t], S2 as [S2i S2t].
    split; [rewrite L1, L2; reflexivity|]. split; congruence.
  - cbn [fst snd] in Hsame. destruct Hsame as (H1 & H2 & H3).
    rewrite <- H1, <- H2, <- H3.
    unfold gst_perf_get_gpu_stats.
    destruct (gpu_stats_enabled p);
      try destruct (spawn_ret gpu && (spawn_exit_status gpu =? 0));
      repeat split.
Qed.

(** The estimator runs at every report, whether or not [print-cpu-load] is
    set. When [/proc/stat] cannot be read the report carries 4294967295 and
    the snapshot is kept, so that the next reading covers the whole span;
    otherwise the load is computed from the idle field and the sum of the
    eight fields, which become the snapshot. *)
Theorem report_cpu_load (perf perf' : GstPerf) (time size : Z)
    (stat : option ProcStat) (gpu : SpawnResult) (rep : Report) :
  gst_perf_transform_ip perf time size stat gpu = Some (perf', Some rep) ->
  match stat with
  | None =>
      r_cpu_load rep = 4294967295 /\
      prev_cpu_total perf' = prev_cpu_total perf /\
      prev_cpu_idle perf' = prev_cpu_idle perf
  | Some st =>
      let total :=
        wrap32 (ps_user st + ps_nice st + ps_sys st + ps_idle st
                + ps_iowait st + ps_irq st + ps_softirq st + ps_steal st) in
      r_cpu_load rep = snd (gst_perf_compute_cpu perf (ps_idle st) total) /\
      prev_cpu_total perf' = total /\ prev_cpu_idle perf' = ps_idle st
  end.
Proof.
  unfold gst_perf_transform_ip. intros H.
  pose proof (report_block_cpu perf time stat gpu) as (C1 & C2 & C3).
  destruct (report_due perf time);
    [|destruct (gst_perf_update_bps _) in H; discriminate].
  destruct (report_block perf time stat gpu) as [p r].
  destruct (gst_perf_update_bps _) as [q|] eqn:U in H; [|discriminate].
  injection H as <- <-.
  apply update_bps_cpu in U. destruct U as (Ut & Ui & _).
  cbn [fst snd] in C1, C2, C3.
  change (prev_cpu_total q = prev_cpu_total p) in Ut.
  change (prev_cpu_idle q = prev_cpu_idle p) in Ui.
  rewrite Ut, Ui, C1, C2, C3. clear.
  unfold gst_perf_cpu_get_load. destruct stat as [st|]; [|repeat split].
  cbv zeta.
  match goal with
  | |- context [gst_perf_compute_cpu perf ?i ?t] =>
      pose proof (compute_cpu_snapshot perf i t) as [Si St];
      destruct (gst_perf_compute_cpu perf i t) as [p' l]
  end.
  cbn [fst snd] in *. split; [reflexivity|]. split; assumption.
Qed.

Lemma report_cpu_load_witness :
  exists perf' rep,
    gst_perf_transform_ip (gst_perf_start gst_perf_init) 5000 10
      (Some (mkProcStat 100 0 50 150 0 0 0 0)) no_gpu = Some (perf', Some rep) /\
    r_cpu_load rep = 50 /\ prev_cpu_total perf' = 300.
Proof.
  destruct (gst_perf_transform_ip (gst_perf_start gst_perf_init) 5000 10
              (Some (mkProcStat 100 0 50 150 0 0 0 0)) no_gpu)
    as [[perf' [rep|]]|] eqn:E;
    [|vm_compute in E; discriminate|vm_compute in E; discriminate].
  exists perf', rep. split; [reflexivity|].
  pose proof (report_cpu_load _ _ _ _ _ _ _ E) as H. cbv zeta in H.
  destruct H as (H1 & H2 & _).
  split; [rewrite H1|rewrite H2]; vm_compute; reflexivity.
Defined.

(** ** Restarting *)

Lemma step_configuration (perf perf' : GstPerf) (e : event) (r : option Report) :
  step perf e = Some (perf', r) -> configuration perf' = configuration perf.
Proof.
  assert (U : forall p p', gst_perf_update_bps p = Some p' ->
                           configuration p' = configuration p).
  { intros p p' Hp. pose proof (update_bps_inv _ _ Hp) as I.
    pose proof (update_bps_cpu _ _ Hp) as (_ & _ & C3 & C4 & C5).
    destruct I as (_ & _ & _ & _ & _ & _ & _ & I8 & _ & _ & I11).
    unfold configuration. congruence. }
  destruct e as [time size stat gpu|]; cbn [step]; intros H.
  - unfold gst_perf_transform_ip in H.
    assert (R : configuration (fst (report_block perf time stat gpu)) =
                configuration perf).
    { unfold report_block, gst_perf_cpu_get_load, gst_perf_compute_cpu,
        gst_perf_get_gpu_stats, configuration.
      destruct stat as [st|]; cbn; split_ifs; congruence. }
    destruct (report_due perf time);
      [destruct (report_block perf time stat gpu) as [p rep]; cbn [fst] in R|];
      destruct (gst_perf_update_bps _) as [q|] eqn:Hq in H; try discriminate;
      injection H as <- _; rewrite (U _ _ Hq); [exact R|reflexivity].
  - destruct (gst_perf_update_bps perf) as [q|] eqn:Hq; [|discriminate].
    injection H as <- _. exact (U _ _ Hq).
Qed.

Lemma run_configuration (evs : list event) :
  forall (perf perf' : GstPerf) (rs : list (Z * Report)),
    run perf evs = Some (perf', rs) -> configuration perf' = configuration perf.
Proof.
  induction evs as [|e rest IH]; intros perf perf' rs Hr; cbn in Hr.
  - injection Hr as <- _. reflexivity.
  - destruct (step perf e) as [[p1 r]|] eqn:Hs; [|discriminate].
    destruct (run p1 rest) as [[p2 rs']|] eqn:Hr'; [|discriminate].
    injection Hr as <- _.
    rewrite (IH _ _ _ Hr'). exact (step_configuration _ _ _ _ Hs).
Qed.

(** Stopping and starting again forgets the session: whatever buffers and
    ticks it saw, the element is the one a first start would give, except
    for [bps], which keeps the last published sample. *)
Theorem restart_forgets_session (perf0 perf : GstPerf) (evs : list event)
    (rs : list (Z * Report)) :
  run (gst_perf_start perf0) evs = Some (perf, rs) ->
  gst_perf_start (gst_perf_stop perf) =
    set_bps (gst_perf_start (gst_perf_stop perf0)) (bps perf).
Proof.
  intros Hr. apply run_configuration in Hr.
  assert (Hs : configuration (gst_perf_start perf0) = configuration perf0).
  { unfold gst_perf_start, configuration. cbn.
    destruct (bps_window_size perf0 =? 0); reflexivity. }
  rewrite Hs in Hr. unfold configuration in Hr.
  injection Hr as E1 E2 E3 E4 E5.
  clear Hs. destruct perf, perf0. cbn in E1, E2, E3, E4, E5. subst.
  unfold gst_perf_start, gst_perf_stop. cbn.
  match goal with |- context [?w =? 0] => destruct (w =? 0) end; reflexivity.
Qed.

Lemma restart_forgets_session_witness :
  exists perf rs,
    run (gst_perf_start gst_perf_init)
      [Buffer 5000 1000 None no_gpu; Tick; Buffer 1000005000 500 None no_gpu] =
      Some (perf, rs) /\
    gst_perf_start (gst_perf_stop perf) =
      set_bps (gst_perf_start (gst_perf_stop gst_perf_init)) (d_of_Z 4000).
Proof.
  destruct (run (gst_perf_start gst_perf_init)
              [Buffer 5000 1000 None no_gpu; Tick; Buffer 1000005000 500 None no_gpu])
    as [[perf rs]|] eqn:Hr; [|vm_compute in Hr; discriminate].
  exists perf, rs. split; [reflexivity|].
  rewrite (restart_forgets_session gst_perf_init perf _ rs Hr).
  f_equal. vm_compute in Hr. injection Hr as <- _. reflexivity.
Defined.

(** ** What the two totals count *)

Lemma run_report_count (evs : list event) :
  forall (perf perf' : GstPerf) (rs : list (Z * Report)),
    run perf evs = Some (perf', rs) ->
    counters_ok perf ->
    byte_count_total perf + Z.of_nat (length evs) < 2 ^ 64 ->
    frame_count_total perf + Z.of_nat (length evs) < 2 ^ 64 ->
    frame_count_total perf' = frame_count_total perf + Z.of_nat (length rs) /\
    (length rs <= length evs)%nat.
Proof.
  induction evs as [|e rest IH]; intros perf perf' rs Hr Hc Lb Lf; cbn in Hr.
  - injection Hr as <- <-. cbn. split; lia.
  - destruct (step perf e) as [[p1 r]|] eqn:Hs; [|discriminate].
    destruct (run p1 rest) as [[p2 rs']|] eqn:Hr'; [|discriminate].
    injection Hr as <- <-.
    change (length (e :: rest)) with (S (length rest)) in *.
    rewrite Nat2Z.inj_succ in *.
    destruct (step_counters _ _ _ _ Hs Hc ltac:(lia) ltac:(lia))
      as (Hc1 & _ & Hb1 & Hm).
    assert (Hf1 : frame_count_total p1 =
                  frame_count_total perf +
                  match e, r with Buffer _ _ _ _, Some _ => 1 | _, _ => 0 end).
    { destruct e, r; destruct Hm as [_ ->]; lia. }
    destruct (IH p1 p2 rs' Hr' Hc1) as [IH1 IH2].
    { rewrite Hb1. lia. }
    { rewrite Hf1. destruct e, r; lia. }
    rewrite IH1, Hf1.
    destruct e, r; cbn [length]; rewrite ?Nat2Z.inj_succ; split; lia.
Qed.

(** In a session, [byte_count_total] is the number of samples taken, one
    per tick and one per buffer, and [frame_count_total] the number of
    reports emitted. *)
Theorem totals_count_samples_and_reports (perf0 perf : GstPerf) (evs : list event)
    (rs : list (Z * Report)) :
  run (gst_perf_start perf0) evs = Some (perf, rs) ->
  Z.of_nat (length evs) < 2 ^ 64 ->
  byte_count_total perf = Z.of_nat (length evs) /\
  frame_count_total perf = Z.of_nat (length rs) /\
  (length rs <= length evs)%nat.
Proof.
  intros Hr Hlen.
  destruct (start_counters perf0) as (Hc0 & Hb0 & Hf0).
  destruct (run_counters evs _ _ _ Hr Hc0 ltac:(lia) ltac:(lia)) as (_ & Hb & _).
  destruct (run_report_count evs _ _ _ Hr Hc0 ltac:(lia) ltac:(lia)) as (Hf & Hle).
  split; [lia|]. split; [lia|exact Hle].
Qed.

Lemma totals_count_samples_and_reports_witness :
  exists perf rs,
    run (gst_perf_start gst_perf_init)
      [Buffer 5000 1000 None no_gpu; Tick; Buffer 6000 10 None no_gpu;
       Buffer 1000005000 500 None no_gpu] = Some (perf, rs) /\
    byte_count_total perf = 4 /\ frame_count_total perf = 2.
Proof.
  destruct (run (gst_perf_start gst_perf_init)
              [Buffer 5000 1000 None no_gpu; Tick; Buffer 6000 10 None no_gpu;
               Buffer 1000005000 500 None no_gpu])
    as [[perf rs]|] eqn:Hr; [|vm_compute in Hr; discriminate].
  exists perf, rs. split; [reflexivity|].
  destruct (totals_count_samples_and_reports gst_perf_init perf _ rs Hr) as (H1 & H2 & _).
  - cbn. lia.
  - split; [exact H1|]. rewrite H2.
    vm_compute in Hr. injection Hr as _ <-. reflexivity.
Defined.
